(** * Support / resistance breakout strategy (s_r_strategy.py)

    A shallow embedding of [SupportResistanceStrategy]: the bounded price
    buffer, the swing detector, the level lock and the trade life cycle,
    followed by the properties the specification states about them.

    Python values are modelled as the interpreter has them:
    - [float] is IEEE-754 binary64, i.e. Rocq's primitive [float]; the
      comparison operators are the IEEE ones (false on NaN);
    - [int] is unbounded, i.e. [Z];
    - [str] is [string]; [Optional[T]] is [option T];
    - the instance attributes form the record [Strategy]; every method runs
      under the instance lock, so a method is one atomic state transformer;
    - [datetime.now().isoformat()] is an extra argument [now];
    - an exception is the [Raise] case of [result]. *)

From Stdlib Require Import ZArith List String Ascii Bool Lia Floats.
From Stdlib Require Import DecimalString.
Import ListNotations.
Local Open Scope Z_scope.
Set Warnings "-inexact-float".

(* ================================================================== *)
(** * Python builtins used by the strategy *)
(* ================================================================== *)

Module Py.

(** Exceptions the arithmetic of the strategy can raise. *)
Inductive exn : Type :=
| TypeError
| ZeroDivisionError
| OverflowError.

Inductive result (A : Type) : Type :=
| Ok (a : A)
| Raise (e : exn).
Arguments Ok {A} a.
Arguments Raise {A} e.

(** Comparison operators on [float]: [a < b], [a > b], [a <= b], [a >= b]. *)
Definition flt (a b : float) : bool := PrimFloat.ltb a b.
Definition fgt (a b : float) : bool := PrimFloat.ltb b a.
Definition fle (a b : float) : bool := PrimFloat.leb a b.
Definition fge (a b : float) : bool := PrimFloat.leb b a.

(** [float(n)] for an [int] operand of a mixed [float * int] product:
    correctly rounded to nearest-even, [OverflowError] when the rounded
    value is not finite. *)
Definition float_of_int (n : Z) : result float :=
  match binary_normalize prec emax n 0 false with
  | S754_infinity _ => Raise OverflowError
  | sf => Ok (SF2Prim sf)
  end.

(** [a / b] on floats: [ZeroDivisionError] when [b == 0.0]. *)
Definition fdiv (a b : float) : result float :=
  if PrimFloat.eqb b 0%float then Raise ZeroDivisionError
  else Ok (PrimFloat.div a b).

(** Nearest integer to [n / d] for [0 < d], ties to the even one. *)
Definition round_half_even (n d : Z) : Z :=
  let q := n / d in
  let r := n mod d in
  match 2 * r ?= d with
  | Lt => q
  | Gt => q + 1
  | Eq => if Z.even q then q else q + 1
  end.

(** The magnitude [m * 2^e], in hundredths, rounded half-even. *)
Definition hundredths (m : positive) (e : Z) : Z :=
  if 0 <=? e then Z.pos m * 2 ^ e * 100
  else round_half_even (Z.pos m * 100) (2 ^ (- e)).

(** [round(x, 2)]: NaN, infinities and zeros round to themselves; a
    finite [x] is rounded, on its exact binary value, to two decimals
    (half-even), and the decimal is converted back to the nearest float;
    the sign of [x] is kept. *)
Definition round2 (x : float) : float :=
  match Prim2SF x with
  | S754_finite s m e =>
      match hundredths m e with
      | Z.pos n =>
          SF2Prim (SFdiv prec emax (S754_finite s n 0) (S754_finite false 100 0))
      | _ => if s then neg_zero else zero
      end
  | _ => x
  end.

(** [min(l)] and [max(l)] on a non-empty list: the first item is the
    candidate, a later item replaces it when [item < best]
    (resp. [item > best]). *)
Definition min_step (best item : float) : float :=
  if flt item best then item else best.
Definition max_step (best item : float) : float :=
  if fgt item best then item else best.

Definition py_min (l : list float) : option float :=
  match l with
  | [] => None
  | x :: r => Some (fold_left min_step r x)
  end.

Definition py_max (l : list float) : option float :=
  match l with
  | [] => None
  | x :: r => Some (fold_left max_step r x)
  end.

(** [l[start:]] with Python's treatment of a negative or too large
    [start]. *)
Definition slice_from {A : Type} (l : list A) (start : Z) : list A :=
  let n := Z.of_nat (List.length l) in
  let i := if start <? 0 then Z.max (n + start) 0 else Z.min start n in
  skipn (Z.to_nat i) l.

(** [s.upper()] for a string of ASCII characters, where it maps a-z to
    A-Z and keeps every other character.  [is_ascii] below is that
    domain; what is stated of an upper-cased symbol is stated for ASCII
    symbols. *)
Definition upper_ascii (c : ascii) : ascii :=
  let n := nat_of_ascii c in
  if (Nat.leb 97 n && Nat.leb n 122)%bool then ascii_of_nat (n - 32) else c.

Fixpoint upper (s : string) : string :=
  match s with
  | EmptyString => EmptyString
  | String c r => String (upper_ascii c) (upper r)
  end.

(** [s.isascii()]: every character is below 128. *)
Definition is_ascii_char (c : ascii) : bool := Nat.ltb (nat_of_ascii c) 128.

Fixpoint is_ascii (s : string) : bool :=
  match s with
  | EmptyString => true
  | String c r => (is_ascii_char c && is_ascii r)%bool
  end.

End Py.
Import Py.

(* ================================================================== *)
(** * Data model *)
(* ================================================================== *)

(** One entry of [price_data]. *)
Record PricePoint : Type := mkPoint {
  high : float;
  low : float;
  close : float;
  timestamp : string
}.

(** The [active_trade] dictionary. *)
Record Trade : Type := mkTrade {
  is_active : bool;
  direction : option string;
  entry_price : option float;
  entry_time : option string;
  quantity : Z;
  order_id : option string;
  target_price : option float;
  stop_price : option float
}.

(** The dictionary written by [__init__], [exit_trade] and
    [reset_strategy]. *)
Definition no_trade : Trade :=
  mkTrade false None None None 0 None None None.

(** The instance attributes. *)
Record Strategy : Type := mkStrategy {
  symbol : string;
  lookback_period : Z;
  profit_target : float;
  stop_loss : float;
  support_level : option float;
  resistance_level : option float;
  levels_locked : bool;
  active_trade : Trade;
  price_data : list PricePoint
}.

(** [self.max_data_points], fixed by [__init__]. *)
Definition max_data_points : Z := 50.

(** The dictionary returned by [exit_trade]. *)
Record TradeSummary : Type := mkSummary {
  sum_symbol : string;
  sum_direction : option string;
  sum_entry_price : float;
  sum_exit_price : float;
  sum_quantity : Z;
  sum_entry_time : option string;
  sum_exit_time : string;
  sum_exit_reason : string;
  pnl : float;
  pnl_percent : float;
  entry_order_id : option string;
  exit_order_id : option string
}.

(** ** Attribute assignments *)

Definition set_price_data (s : Strategy) (d : list PricePoint) : Strategy :=
  mkStrategy (symbol s) (lookback_period s) (profit_target s) (stop_loss s)
             (support_level s) (resistance_level s) (levels_locked s)
             (active_trade s) d.

Definition set_levels (s : Strategy) (sup res : option float) : Strategy :=
  mkStrategy (symbol s) (lookback_period s) (profit_target s) (stop_loss s)
             sup res (levels_locked s) (active_trade s) (price_data s).

Definition set_levels_locked (s : Strategy) (b : bool) : Strategy :=
  mkStrategy (symbol s) (lookback_period s) (profit_target s) (stop_loss s)
             (support_level s) (resistance_level s) b
             (active_trade s) (price_data s).

Definition set_active_trade (s : Strategy) (t : Trade) : Strategy :=
  mkStrategy (symbol s) (lookback_period s) (profit_target s) (stop_loss s)
             (support_level s) (resistance_level s) (levels_locked s)
             t (price_data s).

(* ================================================================== *)
(** * The methods of [SupportResistanceStrategy] *)
(* ================================================================== *)

(** [__init__(symbol, lookback_period, profit_target, stop_loss)]. *)
Definition init (sym : string) (lookback : Z) (pt sl : float) : Strategy :=
  mkStrategy (upper sym) lookback pt sl None None false no_trade [].

(** [__init__] with the default parameters. *)
Definition init_default (sym : string) : Strategy :=
  init sym 10 0.03%float 0.01%float.

(** [add_price_data(high, low, close, timestamp=None)]. *)
Definition add_price_data (s : Strategy) (h l c : float)
    (ts : option string) (now : string) : Strategy :=
  let timestamp := match ts with None => now | Some t => t end in
  let price_point := mkPoint h l c timestamp in
  let data := price_data s ++ [price_point] in
  if max_data_points <? Z.of_nat (List.length data)
  then set_price_data s (slice_from data (- max_data_points))
  else set_price_data s data.

(** One iteration of the swing loop at index [i] of [recent_data]; the
    accumulator is [(swing_highs, swing_lows)]. *)
Definition swing_step (recent_data : list PricePoint)
    (acc : list float * list float) (i : nat) : list float * list float :=
  match nth_error recent_data (i - 1), nth_error recent_data i,
        nth_error recent_data (i + 1) with
  | Some prev_candle, Some current, Some next_candle =>
      let swing_highs :=
        if (fgt (high current) (high prev_candle)
            && fgt (high current) (high next_candle))%bool
        then fst acc ++ [high current] else fst acc in
      let swing_lows :=
        if (flt (low current) (low prev_candle)
            && flt (low current) (low next_candle))%bool
        then snd acc ++ [low current] else snd acc in
      (swing_highs, swing_lows)
  | _, _, _ => acc
  end.

(** [for i in range(1, len(recent_data) - 1)]. *)
Definition find_swings (recent_data : list PricePoint)
    : list float * list float :=
  fold_left (swing_step recent_data)
            (seq 1 (List.length recent_data - 2)) ([], []).

(** [detect_support_resistance()]: [(support, resistance)]. *)
Definition detect_support_resistance (s : Strategy)
    : option float * option float :=
  if Z.of_nat (List.length (price_data s)) <? lookback_period s + 2
  then (None, None)
  else
    let recent_data := slice_from (price_data s) (- lookback_period s - 2) in
    let swings := find_swings recent_data in
    (py_min (snd swings), py_max (fst swings)).

(** [update_levels()]. *)
Definition update_levels (s : Strategy) : Strategy * bool :=
  if levels_locked s then (s, false)
  else
    match detect_support_resistance s with
    | (Some support, Some resistance) =>
        if fge support resistance then (s, false)
        else (set_levels s (Some support) (Some resistance), true)
    | _ => (s, false)
    end.

(** [check_breakout_signal(current_price)]. *)
Definition check_breakout_signal (s : Strategy) (current_price : float)
    : result (option string) :=
  if is_active (active_trade s) then Ok None
  else
    match support_level s, resistance_level s with
    | Some support, Some resistance =>
        if fgt current_price resistance then Ok (Some "long"%string)
        else if flt current_price support then Ok (Some "short"%string)
        else Ok None
    | _, _ => Ok None
    end.

(** [direction == 'long'] on the stored (possibly [None]) direction. *)
Definition is_long (d : option string) : bool :=
  match d with
  | Some x => String.eqb x "long"
  | None => false
  end.

(** [enter_trade(direction, entry_price, quantity, order_id=None)]. *)
Definition enter_trade (s : Strategy) (dir : string) (entry : float)
    (qty : Z) (oid : option string) (now : string) : Strategy * bool :=
  if is_active (active_trade s) then (s, false)
  else
    let '(target, stop) :=
      if String.eqb dir "long"
      then (entry * (1 + profit_target s), entry * (1 - stop_loss s))%float
      else (entry * (1 - profit_target s), entry * (1 + stop_loss s))%float in
    let trade :=
      mkTrade true (Some dir) (Some entry) (Some now) qty oid
              (Some target) (Some stop) in
    (set_levels_locked (set_active_trade s trade) true, true).

(** [check_exit_conditions(current_price)]; comparing with a [None]
    bound raises [TypeError]. *)
Definition check_exit_conditions (s : Strategy) (current_price : float)
    : result (option string) :=
  let t := active_trade s in
  if negb (is_active t) then Ok None
  else if is_long (direction t) then
    match target_price t with
    | None => Raise TypeError
    | Some target =>
        if fge current_price target then Ok (Some "profit"%string)
        else
          match stop_price t with
          | None => Raise TypeError
          | Some stop =>
              if fle current_price stop then Ok (Some "loss"%string)
              else Ok None
          end
    end
  else
    match target_price t with
    | None => Raise TypeError
    | Some target =>
        if fle current_price target then Ok (Some "profit"%string)
        else
          match stop_price t with
          | None => Raise TypeError
          | Some stop =>
              if fge current_price stop then Ok (Some "loss"%string)
              else Ok None
          end
    end.

(** The P&L block of [exit_trade]: [(pnl, pnl_percent)] before rounding. *)
Definition compute_pnl (long : bool) (entry exit_price : float) (qty : Z)
    : result (float * float) :=
  let diff := if long then (exit_price - entry)%float
              else (entry - exit_price)%float in
  match float_of_int qty with
  | Raise e => Raise e
  | Ok q =>
      match fdiv diff entry with
      | Raise e => Raise e
      | Ok ratio => Ok ((diff * q)%float, (ratio * 100)%float)
      end
  end.

(** [exit_trade(exit_price, exit_reason, exit_order_id=None)]; the empty
    dictionary returned without an active trade is [None]. *)
Definition exit_trade (s : Strategy) (exit_price : float) (reason : string)
    (exit_oid : option string) (now : string)
    : Strategy * result (option TradeSummary) :=
  let t := active_trade s in
  if negb (is_active t) then (s, Ok None)
  else
    match entry_price t with
    | None => (s, Raise TypeError)
    | Some entry =>
        match compute_pnl (is_long (direction t)) entry exit_price (quantity t) with
        | Raise e => (s, Raise e)
        | Ok (p, pp) =>
            let trade_summary :=
              mkSummary (symbol s) (direction t) entry exit_price (quantity t)
                        (entry_time t) now reason (round2 p) (round2 pp)
                        (order_id t) exit_oid in
            let s1 := set_active_trade s no_trade in
            let s2 := set_levels_locked s1 false in
            let s3 := set_levels s2 None None in
            (s3, Ok (Some trade_summary))
        end
    end.

(** [reset_strategy()]. *)
Definition reset_strategy (s : Strategy) : Strategy :=
  set_price_data
    (set_active_trade (set_levels_locked (set_levels s None None) false) no_trade)
    [].

(* ================================================================== *)
(** * Sequences of calls on one instance *)
(* ================================================================== *)

(** A method call with its arguments. *)
Inductive op : Type :=
| AddPriceData (h l c : float) (ts : option string)
| UpdateLevels
| CheckBreakoutSignal (current_price : float)
| EnterTrade (dir : string) (entry : float) (qty : Z) (oid : option string)
| CheckExitConditions (current_price : float)
| ExitTrade (exit_price : float) (reason : string) (exit_oid : option string)
| ResetStrategy.

(** What a call returns. *)
Inductive value : Type :=
| VNone
| VBool (b : bool)
| VSignal (r : option string)
| VSummary (r : option TradeSummary).

Definition map_result {A B : Type} (f : A -> B) (r : result A) : result B :=
  match r with
  | Ok a => Ok (f a)
  | Raise e => Raise e
  end.

(** One call at clock reading [now]. *)
Definition call (s : Strategy) (now : string) (o : op)
    : Strategy * result value :=
  match o with
  | AddPriceData h l c ts => (add_price_data s h l c ts now, Ok VNone)
  | UpdateLevels =>
      let '(s', b) := update_levels s in (s', Ok (VBool b))
  | CheckBreakoutSignal p => (s, map_result VSignal (check_breakout_signal s p))
  | EnterTrade dir entry qty oid =>
      let '(s', b) := enter_trade s dir entry qty oid now in (s', Ok (VBool b))
  | CheckExitConditions p => (s, map_result VSignal (check_exit_conditions s p))
  | ExitTrade p reason oid =>
      let '(s', r) := exit_trade s p reason oid now in (s', map_result VSummary r)
  | ResetStrategy => (reset_strategy s, Ok VNone)
  end.

(** A run: the calls in order, each with its clock reading. *)
Fixpoint run (s : Strategy) (calls : list (string * op)) : Strategy :=
  match calls with
  | [] => s
  | (now, o) :: rest => run (fst (call s now o)) rest
  end.

(** The states an instance can be in: any constructor call followed by
    any run. *)
Inductive reachable : Strategy -> Prop :=
| reach_init : forall sym lookback pt sl, reachable (init sym lookback pt sl)
| reach_call : forall s now o, reachable s -> reachable (fst (call s now o)).

(* ================================================================== *)
(** * The status snapshot *)
(* ================================================================== *)

(** The ['strategy_params'] entry of the status. *)
Record StrategyParams : Type := mkParams {
  sp_lookback_period : Z;
  profit_target_percent : float;
  stop_loss_percent : float
}.

(** The dictionary returned by [get_status]. *)
Record Status : Type := mkStatus {
  st_symbol : string;
  st_support_level : option float;
  st_resistance_level : option float;
  st_levels_locked : bool;
  st_active_trade : Trade;
  data_points : Z;
  strategy_params : StrategyParams
}.

(** [get_status()]; the trade dictionary is copied, so the snapshot is a
    value. *)
Definition get_status (s : Strategy) : Status :=
  mkStatus (symbol s) (support_level s) (resistance_level s)
           (levels_locked s) (active_trade s)
           (Z.of_nat (List.length (price_data s)))
           (mkParams (lookback_period s)
                     (profit_target s * 100)%float
                     (stop_loss s * 100)%float).

(* ================================================================== *)
(** * The registry of instances *)
(* ================================================================== *)

(** [strategy_instances]: a dictionary from symbol to instance, in
    insertion order.  A method called on a registered instance changes
    the instance the dictionary holds, which [reg_store] writes back. *)
Definition Registry : Type := list (string * Strategy).

Fixpoint reg_lookup (k : string) (r : Registry) : option Strategy :=
  match r with
  | [] => None
  | (k', s) :: rest => if String.eqb k k' then Some s else reg_lookup k rest
  end.

(** [del d[k]]. *)
Definition reg_delete (k : string) (r : Registry) : Registry :=
  filter (fun e => negb (String.eqb k (fst e))) r.

(** [d[k] = s]: in place for a known key, at the end for a new one. *)
Fixpoint reg_store (k : string) (s : Strategy) (r : Registry) : Registry :=
  match r with
  | [] => [(k, s)]
  | (k', s') :: rest =>
      if String.eqb k k' then (k', s) :: rest
      else (k', s') :: reg_store k s rest
  end.

(** The keyword arguments [get_strategy] passes on to the constructor. *)
Record Kwargs : Type := mkKwargs {
  kw_lookback_period : option Z;
  kw_profit_target : option float;
  kw_stop_loss : option float
}.

Definition no_kwargs : Kwargs := mkKwargs None None None.

(** [SupportResistanceStrategy(symbol, **kwargs)], with the defaults of
    [__init__] for what is not given. *)
Definition construct (sym : string) (kw : Kwargs) : Strategy :=
  init sym
       (match kw_lookback_period kw with Some n => n | None => 10 end)
       (match kw_profit_target kw with Some x => x | None => 0.03%float end)
       (match kw_stop_loss kw with Some x => x | None => 0.01%float end).

(** [get_strategy(symbol, **kwargs)]: the registry afterwards and the
    instance returned. *)
Definition get_strategy (r : Registry) (sym : string) (kw : Kwargs)
    : Registry * Strategy :=
  let sym := upper sym in
  match reg_lookup sym r with
  | Some s => (r, s)
  | None => let s := construct sym kw in (r ++ [(sym, s)], s)
  end.

(** [remove_strategy(symbol)]. *)
Definition remove_strategy (r : Registry) (sym : string) : Registry * bool :=
  let sym := upper sym in
  match reg_lookup sym r with
  | Some _ => (reg_delete sym r, true)
  | None => (r, false)
  end.

(** The registries a program builds with [get_strategy] and
    [remove_strategy] on ASCII symbols and with method calls on
    registered instances. *)
Inductive reg_reachable : Registry -> Prop :=
| rr_empty : reg_reachable []
| rr_get : forall r sym kw,
    is_ascii sym = true ->
    reg_reachable r -> reg_reachable (fst (get_strategy r sym kw))
| rr_remove : forall r sym,
    is_ascii sym = true ->
    reg_reachable r -> reg_reachable (fst (remove_strategy r sym))
| rr_call : forall r k s now o,
    reg_reachable r -> reg_lookup k r = Some s ->
    reg_reachable (reg_store k (fst (call s now o)) r).

(* ================================================================== *)
(** * Order placement (kite_utils.py) *)
(* ================================================================== *)

(** [s.lower()] and [s.capitalize()] on the ASCII letters, [str(n)]. *)
Definition lower_ascii (c : ascii) : ascii :=
  let n := nat_of_ascii c in
  if (Nat.leb 65 n && Nat.leb n 90)%bool then ascii_of_nat (n + 32) else c.

Fixpoint lower (s : string) : string :=
  match s with
  | EmptyString => EmptyString
  | String c r => String (lower_ascii c) (lower r)
  end.

Definition capitalize (s : string) : string :=
  match s with
  | EmptyString => EmptyString
  | String c r => String (upper_ascii c) (lower r)
  end.

Definition str_of_int (n : Z) : string :=
  NilZero.string_of_int (Z.to_int n).

(** The constants of the Kite client the order uses. *)
Inductive kite_const : Type :=
| TRANSACTION_TYPE_BUY
| TRANSACTION_TYPE_SELL
| EXCHANGE_NSE
| PRODUCT_MIS
| ORDER_TYPE_MARKET
| VALIDITY_DAY.

(** [order_params]. *)
Record OrderParams : Type := mkOrderParams {
  tradingsymbol : string;
  exchange : kite_const;
  transaction_type : kite_const;
  op_quantity : Z;
  product : kite_const;
  order_type : kite_const;
  validity : kite_const
}.

(** The broker side, which the code reaches through [get_kite()] and
    [kite.place_order(...)]: each acts on the outside world [World];
    [get_kite] may raise (its message is returned), [kite_place_order]
    returns an order id or raises (its message is returned). *)
Record Kite (World : Type) : Type := mkKite {
  get_kite : World -> World * option string;
  kite_place_order : World -> OrderParams -> World * (string + string)
}.
Arguments get_kite {World} k w.
Arguments kite_place_order {World} k w p.

(** The dictionary [place_order] returns: status ['success'] or
    ['error'] with its entries. *)
Inductive OrderResult : Type :=
| OrderSuccess (order_id symbol action : string) (quantity : Z)
               (message : string)
| OrderError (message symbol action : string) (quantity : Z).

Definition order_error (e symbol action : string) (qty : Z) : OrderResult :=
  OrderError ("Error placing order: " ++ e) symbol action qty.

(** [place_order(symbol, action, qty)]; every exception is caught and
    turned into an error result. *)
Definition place_order {World : Type} (K : Kite World) (w : World)
    (sym action : string) (qty : Z) : World * OrderResult :=
  if negb (String.eqb (lower action) "buy" || String.eqb (lower action) "sell")
  then (w, order_error "Action must be 'buy' or 'sell'" sym action qty)
  else if qty <=? 0
  then (w, order_error "Quantity must be greater than 0" sym action qty)
  else
    match get_kite K w with
    | (w1, Some e) => (w1, order_error e sym action qty)
    | (w1, None) =>
        let transaction_type :=
          if String.eqb (lower action) "buy"
          then TRANSACTION_TYPE_BUY else TRANSACTION_TYPE_SELL in
        let order_params :=
          mkOrderParams (upper sym) EXCHANGE_NSE transaction_type qty
                        PRODUCT_MIS ORDER_TYPE_MARKET VALIDITY_DAY in
        match kite_place_order K w1 order_params with
        | (w2, inl order_id) =>
            (w2, OrderSuccess order_id (upper sym) (lower action) qty
                   (capitalize action ++ " order for " ++ str_of_int qty
                    ++ " shares of " ++ upper sym
                    ++ " placed successfully"))
        | (w2, inr e) => (w2, order_error e sym action qty)
        end
    end.

(* ================================================================== *)
(** * The price-data path of the webhook (main.py) *)
(* ================================================================== *)

(** The module state of main.py the path touches. *)
Record App : Type := mkApp {
  strategy_instances : Registry;
  monitoring_active : bool
}.

(** [start_monitoring()]: the flag; the thread it starts is not part of
    the state. *)
Definition start_monitoring (a : App) : App :=
  if monitoring_active a then a else mkApp (strategy_instances a) true.

(** The JSON object the price-data path answers with (HTTP 200). *)
Record PriceResponse : Type := mkPriceResponse {
  r_status : string;
  r_symbol : string;
  r_price_data_added : bool;
  r_levels_updated : bool;
  r_support : option float;
  r_resistance : option float;
  r_locked : bool;
  r_breakout_signal : option string;
  r_trade_entered : option bool;
  r_order_result : option OrderResult;
  r_message : option string;
  r_order_error : option string
}.

(** [if breakout_signal:] on an optional string. *)
Definition truthy (x : option string) : option string :=
  match x with
  | Some EmptyString => None
  | other => other
  end.

(** The webhook from [strategy = get_strategy(symbol)] on, for a payload
    with price data: [high], [low], [close] are the converted floats,
    [quantity] the payload's quantity or 1.  A [Raise] is the handler's
    500 answer. *)
Definition webhook_price_data {World : Type} (K : Kite World) (w : World)
    (app : App) (sym : string) (h l c : float) (ts : option string)
    (qty : Z) (now_add now_enter : string)
    : World * App * result PriceResponse :=
  let '(reg, s0) := get_strategy (strategy_instances app) sym no_kwargs in
  let key := upper sym in
  let s1 := add_price_data s0 h l c ts now_add in
  let '(s2, levels_updated) := update_levels s1 in
  let app2 := mkApp (reg_store key s2 reg) (monitoring_active app) in
  match check_breakout_signal s2 c with
  | Raise e => (w, app2, Raise e)
  | Ok signal =>
      let response be te res msg err :=
        mkPriceResponse "success" sym true levels_updated
          (support_level s2) (resistance_level s2) (levels_locked s2)
          be te res msg err in
      match truthy signal with
      | None => (w, app2, Ok (response None None None None None))
      | Some breakout_signal =>
          match place_order K w sym breakout_signal qty with
          | (w1, OrderSuccess oid osym oact oqty omsg) =>
              let order_result := OrderSuccess oid osym oact oqty omsg in
              let '(s3, trade_entered) :=
                enter_trade s2 breakout_signal c qty (Some oid) now_enter in
              let app3 :=
                mkApp (reg_store key s3 reg) (monitoring_active app) in
              if trade_entered
              then (w1, start_monitoring app3,
                    Ok (response (Some breakout_signal) (Some true)
                                 (Some order_result) None None))
              else (w1, app3,
                    Ok (response (Some breakout_signal) (Some false) None
                                 (Some "Failed to enter trade in strategy"%string)
                                 None))
          | (w1, OrderError emsg _ _ _) =>
              (w1, app2,
               Ok (response (Some breakout_signal) (Some false) None None
                            (Some emsg)))
          end
      end
  end.

(** One price event: the arguments of [webhook_price_data]. *)
Record PriceEvent : Type := mkPriceEvent {
  ev_symbol : string;
  ev_high : float;
  ev_low : float;
  ev_close : float;
  ev_timestamp : option string;
  ev_quantity : Z;
  ev_now_add : string;
  ev_now_enter : string
}.

Definition handle_price_event {World : Type} (K : Kite World)
    (wa : World * App) (ev : PriceEvent) : World * App :=
  fst (webhook_price_data K (fst wa) (snd wa) (ev_symbol ev) (ev_high ev)
         (ev_low ev) (ev_close ev) (ev_timestamp ev) (ev_quantity ev)
         (ev_now_add ev) (ev_now_enter ev)).

(** A server fed price events only. *)
Definition feed {World : Type} (K : Kite World) (wa : World * App)
    (events : list PriceEvent) : World * App :=
  fold_left (handle_price_event K) events wa.

(* ================================================================== *)
(** * Closing a trade from main.py: manual exit and the monitor *)
(* ================================================================== *)

(** What [get_ltp(symbol)] answers: a result dictionary with status
    ['success'] and the price, or another status with an optional
    message. *)
Inductive LtpResult : Type :=
| LtpSuccess (ltp : float)
| LtpFailure (message : option string).

(** The market-data side: [get_ltp] acts on the outside world and
    returns its dictionary, or raises (the message is returned). *)
Record Market (World : Type) : Type := mkMarket {
  get_ltp : World -> string -> World * (LtpResult + string)
}.
Arguments get_ltp {World} m w sym.

(** What ends a handler with its 500 answer, or an iteration of the
    monitor with a log line: an exception of the strategy or one raised
    by the market-data side. *)
Inductive failure : Type :=
| PyExn (e : exn)
| External (message : string).

(** [str(x)] of an optional message inside an f-string. *)
Definition str_of_option (m : option string) : string :=
  match m with
  | Some x => x
  | None => "None"
  end.

(** ['sell' if trade['direction'] == 'long' else 'buy']. *)
Definition exit_action (t : Trade) : string :=
  if is_long (direction t) then "sell" else "buy".

(** The answers of [manual_exit]: 404, 400, 200 and 500. *)
Inductive ExitResponse : Type :=
| ExitNotFound (message : string)
| ExitRejected (message : string) (order_result : option OrderResult)
| ExitDone (trade_summary : option TradeSummary) (order_result : OrderResult)
| ExitServerError (e : failure).

(** [manual_exit(symbol)]. *)
Definition manual_exit {World : Type} (K : Kite World) (M : Market World)
    (w : World) (app : App) (sym : string) (now : string)
    : World * App * ExitResponse :=
  match reg_lookup (upper sym) (strategy_instances app) with
  | None => (w, app, ExitNotFound ("No strategy found for " ++ sym))
  | Some strategy =>
      if negb (is_active (active_trade strategy))
      then (w, app, ExitRejected ("No active trade for " ++ sym) None)
      else
        match get_ltp M w sym with
        | (w1, inr e) => (w1, app, ExitServerError (External e))
        | (w1, inl (LtpFailure m)) =>
            (w1, app,
             ExitRejected ("Failed to get LTP: " ++ str_of_option m) None)
        | (w1, inl (LtpSuccess current_price)) =>
            let trade := active_trade strategy in
            match place_order K w1 sym (exit_action trade) (quantity trade) with
            | (w2, OrderSuccess oid osym oact oqty omsg) =>
                let order_result := OrderSuccess oid osym oact oqty omsg in
                let '(s', r) :=
                  exit_trade strategy current_price "manual" (Some oid) now in
                let app' :=
                  mkApp (reg_store (upper sym) s' (strategy_instances app))
                        (monitoring_active app) in
                match r with
                | Ok trade_summary =>
                    (w2, app', ExitDone trade_summary order_result)
                | Raise e => (w2, app', ExitServerError (PyExn e))
                end
            | (w2, OrderError emsg esym eact eqty) =>
                (w2, app,
                 ExitRejected ("Failed to place exit order: " ++ emsg)
                              (Some (OrderError emsg esym eact eqty)))
            end
        end
  end.

(** The body of the monitor's inner loop for one active instance,
    registered as [sym]: fetch the price, check the exit conditions,
    place the opposite order, close the trade.  Every exception is
    caught and logged, which leaves the instance as it is then. *)
Definition monitor_symbol {World : Type} (K : Kite World) (M : Market World)
    (w : World) (strategy : Strategy) (sym : string) (now : string)
    : World * Strategy :=
  match get_ltp M w sym with
  | (w1, inr _) => (w1, strategy)
  | (w1, inl (LtpFailure _)) => (w1, strategy)
  | (w1, inl (LtpSuccess current_price)) =>
      match check_exit_conditions strategy current_price with
      | Raise _ => (w1, strategy)
      | Ok signal =>
          match truthy signal with
          | None => (w1, strategy)
          | Some exit_signal =>
              let trade := active_trade strategy in
              match place_order K w1 sym (exit_action trade) (quantity trade) with
              | (w2, OrderSuccess oid _ _ _ _) =>
                  (w2, fst (exit_trade strategy current_price exit_signal
                                       (Some oid) now))
              | (w2, OrderError _ _ _ _) => (w2, strategy)
              end
          end
      end
  end.

(** One pass of [ltp_monitor] over the registry, in dictionary order and
    without interference from request handlers: the instances with an
    active trade are visited, the others skipped.  [clock sym] is the
    clock reading when [sym] is closed. *)
Fixpoint monitor_pass {World : Type} (K : Kite World) (M : Market World)
    (clock : string -> string) (w : World) (r : Registry)
    : World * Registry :=
  match r with
  | [] => (w, [])
  | (sym, strategy) :: rest =>
      if is_active (active_trade strategy) then
        let '(w1, s') := monitor_symbol K M w strategy sym (clock sym) in
        let '(w2, rest') := monitor_pass K M clock w1 rest in
        (w2, (sym, s') :: rest')
      else
        let '(w2, rest') := monitor_pass K M clock w rest in
        (w2, (sym, strategy) :: rest')
  end.

(** The message ['Action must be "buy" or "sell"'], whose double quote is
    character 34. *)
Definition dquote : string := String (ascii_of_nat 34) EmptyString.

Definition manual_action_message : string :=
  "Action must be " ++ dquote ++ "buy" ++ dquote ++ " or "
  ++ dquote ++ "sell" ++ dquote.

(** The answers of the manual-signal path: 400 with a message, or 200
    with status ['success'], the symbol and the order result. *)
Inductive ManualResponse : Type :=
| Manual400 (message : string)
| Manual200 (symbol : string) (order_result : OrderResult).

(** The webhook's branch for a payload with an ['action']: [action] is
    the payload's action, [qty] its quantity or 1. *)
Definition webhook_manual {World : Type} (K : Kite World) (w : World)
    (sym action : string) (qty : Z) : World * ManualResponse :=
  if negb (String.eqb (lower action) "buy" || String.eqb (lower action) "sell")
  then (w, Manual400 manual_action_message)
  else
    let '(w1, order_result) := place_order K w sym action qty in
    (w1, Manual200 sym order_result).

(* ================================================================== *)
(** * Vocabulary of the properties *)
(* ================================================================== *)

(** The decoded comparison of two floats, and [<=] on decoded values. *)
Definition cmp (a b : float) : option comparison :=
  SFcompare (Prim2SF a) (Prim2SF b).

Definition sf_le (a b : spec_float) : Prop :=
  SFcompare a b = Some Lt \/ SFcompare a b = Some Eq.

(** ** Exit and breakout rules, as the specification words them *)

(** Long position: target hit ([price >= target]) is looked at first,
    then stop hit ([price <= stop]). *)
Definition long_exit (price target stop : float) : option string :=
  if fge price target then Some "profit"%string
  else if fle price stop then Some "loss"%string
  else None.

(** Short position: target hit is [price <= target], looked at first,
    then stop hit [price >= stop]. *)
Definition short_exit (price target stop : float) : option string :=
  if fle price target then Some "profit"%string
  else if fge price stop then Some "loss"%string
  else None.

(** Resistance is compared before support. *)
Definition breakout_rule (price support resistance : float) : option string :=
  if fgt price resistance then Some "long"%string
  else if flt price support then Some "short"%string
  else None.

(** ** Well-formed states *)

(** An active trade carries a direction, an entry price and both bounds. *)
Definition trade_wf (t : Trade) : Prop :=
  is_active t = true ->
  exists d e tp sp,
    direction t = Some d /\ entry_price t = Some e /\
    target_price t = Some tp /\ stop_price t = Some sp.

(** Whenever both levels are set, support < resistance. *)
Definition levels_ordered (s : Strategy) : Prop :=
  forall a b,
    support_level s = Some a -> resistance_level s = Some b ->
    flt a b = true.

Definition buffer_bounded (s : Strategy) : Prop :=
  Z.of_nat (List.length (price_data s)) <= max_data_points.

(** What every reachable state satisfies. *)
Definition Inv (s : Strategy) : Prop :=
  trade_wf (active_trade s) /\ levels_ordered s /\ buffer_bounded s.

(** ** Windows and swings *)

(** The [k] most recent items of [l], oldest first. *)
Definition most_recent {A : Type} (k : nat) (l : list A) : list A :=
  skipn (List.length l - k) l.

(** [h] is the high of a swing high at index [i] of window [w]. *)
Definition swing_high_at (w : list PricePoint) (i : nat) (h : float) : Prop :=
  exists prev_candle current next_candle,
    (1 <= i)%nat /\
    nth_error w (i - 1) = Some prev_candle /\
    nth_error w i = Some current /\
    nth_error w (i + 1) = Some next_candle /\
    fgt (high current) (high prev_candle) = true /\
    fgt (high current) (high next_candle) = true /\
    h = high current.

(** [l] is the low of a swing low at index [i] of window [w]. *)
Definition swing_low_at (w : list PricePoint) (i : nat) (l : float) : Prop :=
  exists prev_candle current next_candle,
    (1 <= i)%nat /\
    nth_error w (i - 1) = Some prev_candle /\
    nth_error w i = Some current /\
    nth_error w (i + 1) = Some next_candle /\
    flt (low current) (low prev_candle) = true /\
    flt (low current) (low next_candle) = true /\
    l = low current.

(** [r] is the minimum of [l], absent exactly when [l] is empty. *)
Definition minimum_or_absent (r : option float) (l : list float) : Prop :=
  match r with
  | None => l = []
  | Some m => In m l /\ forall x, In x l -> fle m x = true
  end.

Definition maximum_or_absent (r : option float) (l : list float) : Prop :=
  match r with
  | None => l = []
  | Some m => In m l /\ forall x, In x l -> fle x m = true
  end.

(** The contributions of index [i] to [swing_highs] and [swing_lows]. *)
Definition highs_at (w : list PricePoint) (i : nat) : list float :=
  match nth_error w (i - 1), nth_error w i, nth_error w (i + 1) with
  | Some p, Some c, Some n =>
      if (fgt (high c) (high p) && fgt (high c) (high n))%bool
      then [high c] else []
  | _, _, _ => []
  end.

Definition lows_at (w : list PricePoint) (i : nat) : list float :=
  match nth_error w (i - 1), nth_error w i, nth_error w (i + 1) with
  | Some p, Some c, Some n =>
      if (flt (low c) (low p) && flt (low c) (low n))%bool
      then [low c] else []
  | _, _, _ => []
  end.

(** ** Ingest sequences *)

(** The arguments of one [add_price_data] call and its clock reading. *)
Record Tick : Type := mkTick {
  t_high : float;
  t_low : float;
  t_close : float;
  t_timestamp : option string;
  t_now : string
}.

Definition tick_call (t : Tick) : string * op :=
  (t_now t, AddPriceData (t_high t) (t_low t) (t_close t) (t_timestamp t)).

(** The point a tick appends. *)
Definition tick_point (t : Tick) : PricePoint :=
  mkPoint (t_high t) (t_low t) (t_close t)
          (match t_timestamp t with None => t_now t | Some x => x end).

Definition ingest (s : Strategy) (ticks : list Tick) : Strategy :=
  run s (map tick_call ticks).

(** ** Runs that keep the trade open *)

(** The call is neither a reset nor an exit that succeeds. *)
Definition keeps_trade (s : Strategy) (now : string) (o : op) : Prop :=
  match o with
  | ResetStrategy => False
  | ExitTrade p reason oid =>
      forall sm, snd (exit_trade s p reason oid now) <> Ok (Some sm)
  | _ => True
  end.

Fixpoint keeps_trade_run (s : Strategy) (calls : list (string * op)) : Prop :=
  match calls with
  | [] => True
  | (now, o) :: rest =>
      keeps_trade s now o /\ keeps_trade_run (fst (call s now o)) rest
  end.

(** ** Sample instances *)

Definition clock0 : string := "2024-01-01T09:15:00".

(** A fresh instance with the default parameters. *)
Definition s_fresh : Strategy := init_default "reliance".

(** Long and short trades entered at 100, quantity 10. *)
Definition s_long : Strategy :=
  run s_fresh [(clock0, EnterTrade "long" 100%float 10 (Some "ORD1"%string))].

Definition s_short : Strategy :=
  run s_fresh [(clock0, EnterTrade "short" 100%float 10 (Some "ORD2"%string))].

(** A long trade of quantity 1, and one entered with the label ["buy"]. *)
Definition s_long1 : Strategy :=
  run s_fresh [(clock0, EnterTrade "long" 100%float 1 None)].

Definition s_buy : Strategy :=
  run s_fresh [(clock0, EnterTrade "buy" 100%float 10 None)].

(** Twelve candles with one swing high (2515) and one swing low (2480). *)
Definition candle (hl : float * float) : Tick :=
  mkTick (fst hl) (snd hl) (snd hl) None clock0.

Definition sample_ticks : list Tick :=
  map candle
    [ (2500, 2490); (2515, 2495); (2505, 2480); (2506, 2485);
      (2507, 2486); (2508, 2487); (2509, 2488); (2510, 2489);
      (2511, 2490); (2512, 2491); (2513, 2492); (2514, 2493) ]%float.

Definition s_sampled : Strategy := ingest s_fresh sample_ticks.

Definition s_levels : Strategy := run s_sampled [(clock0, UpdateLevels)].

(** Sixty candles, numbered by their high. *)
Definition float_of_nat (n : nat) : float :=
  SF2Prim (binary_normalize prec emax (Z.of_nat n) 0 false).

Definition ticks60 : list Tick :=
  map (fun n => candle (float_of_nat n, float_of_nat n)) (seq 0 60).

(* ================================================================== *)
(** * Vocabulary of the further properties *)
(* ================================================================== *)

(** The breakout rule with the two comparisons swapped. *)
Definition breakout_rule_support_first (price support resistance : float)
    : option string :=
  if flt price support then Some "short"%string
  else if fgt price resistance then Some "long"%string
  else None.

(** What else every reachable state satisfies: the lock follows the
    trade, an idle trade dictionary is the blank one, and the levels are
    numbers. *)
Definition lock_follows_trade (s : Strategy) : Prop :=
  levels_locked s = is_active (active_trade s).

Definition idle_trade_blank (s : Strategy) : Prop :=
  is_active (active_trade s) = false -> active_trade s = no_trade.

Definition levels_are_numbers (s : Strategy) : Prop :=
  (forall a, support_level s = Some a -> is_nan a = false) /\
  (forall b, resistance_level s = Some b -> is_nan b = false).

Definition Inv2 (s : Strategy) : Prop :=
  lock_follows_trade s /\ idle_trade_blank s /\ levels_are_numbers s.

(** Two instances with the same constructor parameters. *)
Definition same_params (s s0 : Strategy) : Prop :=
  symbol s = symbol s0 /\ lookback_period s = lookback_period s0 /\
  profit_target s = profit_target s0 /\ stop_loss s = stop_loss s0.

(** A trade entered at price 0. *)
Definition s_zero : Strategy :=
  run s_fresh [(clock0, EnterTrade "long" 0%float 10 None)].

(** ** Registries *)

(** An entry is stored under its own symbol, which is ASCII and
    upper-case, and holds a reachable instance. *)
Definition entry_ok (e : string * Strategy) : Prop :=
  symbol (snd e) = fst e /\ is_ascii (fst e) = true /\
  upper (fst e) = fst e /\ reachable (snd e).

Definition reg_wf (r : Registry) : Prop :=
  NoDup (map fst r) /\ Forall entry_ok r.

(** No registered instance has an open trade. *)
Definition no_open_trades (r : Registry) : Prop :=
  forall k s, reg_lookup k r = Some s -> is_active (active_trade s) = false.

(** No entry of the registry holds an active trade. *)
Definition all_idle (r : Registry) : Prop :=
  Forall (fun e => is_active (active_trade (snd e)) = false) r.

(** The message [place_order] answers an unknown action with. *)
Definition bad_action_message : string :=
  "Error placing order: Action must be 'buy' or 'sell'".

(** A broker that accepts every order; the world counts them. *)
Definition demo_kite : Kite nat :=
  mkKite nat (fun w => (w, None))
         (fun w p => (S w, inl "ORDER-1"%string)).

Definition fresh_app : App := mkApp [] false.

(** The twelve sample candles and a breakout candle, as price events for
    ["reliance"]. *)
Definition price_event (t : Tick) : PriceEvent :=
  mkPriceEvent "reliance" (t_high t) (t_low t) (t_close t) (t_timestamp t)
               1 (t_now t) (t_now t).

Definition sample_events : list PriceEvent :=
  map price_event (sample_ticks ++ [candle (2530, 2520)%float]).

(** A registry with one instance, asked for under two spellings. *)
Definition reg_one : Registry :=
  fst (get_strategy [] "reliance" no_kwargs).

(** A registry with two instances: ["RELIANCE"], which then entered the
    long trade at 100, and ["TCS"]. *)
Definition reg_two : Registry :=
  fst (get_strategy
         (reg_store "RELIANCE"
            (fst (call (init_default "RELIANCE") clock0
                       (EnterTrade "long" 100%float 10 (Some "ORD1"%string))))
            reg_one)
         "tcs" no_kwargs).

(** ** Closing trades *)

(** A market that quotes 5 for every symbol. *)
Definition demo_market : Market nat :=
  mkMarket nat (fun w sym => (w, inl (LtpSuccess 5%float))).

(** An app whose one instance holds the trade entered at price 0, and
    one whose instance holds a trade of quantity 0. *)
Definition app_zero : App := mkApp [("RELIANCE"%string, s_zero)] true.

Definition s_noqty : Strategy :=
  run s_fresh [(clock0, EnterTrade "long" 100%float 0 None)].

Definition app_noqty : App := mkApp [("RELIANCE"%string, s_noqty)] true.

Definition app_long : App := mkApp [("RELIANCE"%string, s_long)] true.

(** A market that quotes 103. *)
Definition market_103 : Market nat :=
  mkMarket nat (fun w sym => (w, inl (LtpSuccess 103%float))).

(** The sampled instance with its levels set and a long trade entered at
    the breakout price 2520; the same with quantity 0; a market that
    quotes 2600; a registry holding both and an idle instance. *)
Definition s_open : Strategy :=
  run s_levels [(clock0, EnterTrade "long" 2520%float 1 (Some "ORD3"%string))].

Definition s_noqty_open : Strategy :=
  run s_levels [(clock0, EnterTrade "long" 2520%float 0 None)].

Definition market_2600 : Market nat :=
  mkMarket nat (fun w sym => (w, inl (LtpSuccess 2600%float))).

Definition reg_three : Registry :=
  [("RELIANCE"%string, s_open); ("TCS"%string, s_sampled);
   ("INFY"%string, s_noqty_open)].

(** The registry with two instances after ["infy"] was registered and
    removed again. *)
Definition reg_built : Registry :=
  fst (remove_strategy (fst (get_strategy reg_two "infy" no_kwargs)) "Infy").

(* ================================================================== *)
(** * Facts about float comparison *)
(* ================================================================== *)

(** The comparisons of binary64 are those of [SFcompare] on the decoded
    value; the facts below are proved there and carried back. *)

Module FloatOrder.

Lemma SFcompare_antisym a b :
  SFcompare b a = option_map CompOpp (SFcompare a b).
Proof.
  destruct a as [sa|sa| |sa ma ea], b as [sb|sb| |sb mb eb];
    simpl; try reflexivity;
    try (destruct sa; reflexivity); try (destruct sb; reflexivity);
    try (destruct sa, sb; reflexivity).
  destruct sa, sb; simpl; try reflexivity;
    change (Pos.compare_cont Eq mb ma) with (Pos.compare mb ma);
    change (Pos.compare_cont Eq ma mb) with (Pos.compare ma mb);
    rewrite (Z.compare_antisym ea eb);
    destruct (ea ?= eb); simpl; try reflexivity;
    rewrite (Pos.compare_antisym ma mb);
    destruct (Pos.compare ma mb); reflexivity.
Qed.

Lemma sf_le_trans a b c : sf_le a b -> sf_le b c -> sf_le a c.
Proof.
  unfold sf_le.
  destruct a as [sa|sa| |sa ma ea], b as [sb|sb| |sb mb eb],
           c as [sc|sc| |sc mc ec];
    simpl; try (intuition congruence);
    try (destruct sa; intuition congruence);
    try (destruct sb; intuition congruence);
    try (destruct sc; intuition congruence);
    try (destruct sa, sb; intuition congruence);
    try (destruct sa, sc; intuition congruence);
    try (destruct sb, sc; intuition congruence);
    try (destruct sa, sb, sc; intuition congruence).
  destruct sa, sb, sc; try (intuition congruence);
    destruct (Z.compare_spec ea eb), (Z.compare_spec eb ec),
             (Z.compare_spec ea ec);
    try lia; try (intuition congruence); subst;
    change (Pos.compare_cont Eq) with Pos.compare;
    destruct (Pos.compare_spec ma mb), (Pos.compare_spec mb mc),
             (Pos.compare_spec ma mc);
    simpl; try lia; try (intuition congruence).
Qed.

Lemma SFcompare_refl a : a <> S754_nan -> SFcompare a a = Some Eq.
Proof.
  destruct a as [sa|sa| |sa ma ea]; simpl; intros H;
    try reflexivity; try congruence.
  - destruct sa; reflexivity.
  - change (Pos.compare_cont Eq ma ma) with (Pos.compare ma ma).
    rewrite Z.compare_refl, Pos.compare_refl. destruct sa; reflexivity.
Qed.

Lemma SFcompare_some a b c :
  SFcompare a b = Some c -> a <> S754_nan /\ b <> S754_nan.
Proof.
  destruct a, b; simpl; intros H; split; congruence.
Qed.

Lemma SFcompare_total a b :
  a <> S754_nan -> b <> S754_nan -> exists c, SFcompare a b = Some c.
Proof.
  destruct a, b; simpl; intros Ha Hb; try congruence; eauto.
Qed.

(** ** The same facts on [float] *)

Lemma flt_cmp a b : flt a b = true <-> cmp a b = Some Lt.
Proof.
  unfold flt, cmp. rewrite ltb_spec. unfold SFltb.
  destruct (SFcompare _ _) as [[| |]|]; split; congruence.
Qed.

Lemma fle_cmp a b :
  fle a b = true <-> cmp a b = Some Lt \/ cmp a b = Some Eq.
Proof.
  unfold fle, cmp. rewrite leb_spec. unfold SFleb.
  destruct (SFcompare _ _) as [[| |]|]; split;
    intuition congruence.
Qed.

Lemma is_nan_cmp a : is_nan a = false <-> Prim2SF a <> S754_nan.
Proof.
  unfold is_nan. rewrite eqb_spec. unfold SFeqb. split.
  - intros H E. rewrite E in H. discriminate.
  - intros H. rewrite (SFcompare_refl _ H). reflexivity.
Qed.

Lemma cmp_antisym a b : cmp b a = option_map CompOpp (cmp a b).
Proof. apply SFcompare_antisym. Qed.

(** Only numbers compare: [a < b] excludes NaN on both sides. *)
Lemma flt_not_nan a b :
  flt a b = true -> is_nan a = false /\ is_nan b = false.
Proof.
  rewrite flt_cmp, !is_nan_cmp. apply SFcompare_some.
Qed.

Lemma fgt_not_nan a b :
  fgt a b = true -> is_nan a = false /\ is_nan b = false.
Proof.
  unfold fgt. intros H. apply (flt_not_nan b a) in H. tauto.
Qed.

Lemma fle_refl a : is_nan a = false -> fle a a = true.
Proof.
  rewrite is_nan_cmp, fle_cmp. intros H. right. apply SFcompare_refl, H.
Qed.

Lemma fle_trans a b c : fle a b = true -> fle b c = true -> fle a c = true.
Proof. rewrite !fle_cmp. apply sf_le_trans. Qed.

Lemma flt_fle a b : flt a b = true -> fle a b = true.
Proof. rewrite flt_cmp, fle_cmp. tauto. Qed.

(** On numbers, [not (a < b)] is [b <= a]. *)
Lemma not_flt_fle a b :
  is_nan a = false -> is_nan b = false -> flt a b = false -> fle b a = true.
Proof.
  rewrite !is_nan_cmp. intros Ha Hb H.
  destruct (SFcompare_total _ _ Ha Hb) as [c Hc].
  apply fle_cmp. rewrite cmp_antisym. unfold cmp. rewrite Hc.
  destruct c; simpl; auto.
  exfalso. assert (flt a b = true) by (apply flt_cmp; exact Hc). congruence.
Qed.

(** On numbers, [not (a >= b)] is [a < b]. *)
Lemma not_fge_flt a b :
  is_nan a = false -> is_nan b = false -> fge a b = false -> flt a b = true.
Proof.
  rewrite !is_nan_cmp. intros Ha Hb H.
  destruct (SFcompare_total _ _ Ha Hb) as [c Hc].
  apply flt_cmp. unfold cmp. rewrite Hc.
  destruct c; auto; exfalso;
    assert (fge a b = true)
      by (apply fle_cmp; rewrite cmp_antisym; unfold cmp; rewrite Hc;
          simpl; auto);
    congruence.
Qed.

(** [a < b] and [a >= b] exclude each other. *)
Lemma flt_not_fge a b : flt a b = true -> fge a b = false.
Proof.
  rewrite flt_cmp. intros H.
  destruct (fge a b) eqn:E; [|reflexivity].
  apply fle_cmp in E. rewrite cmp_antisym, H in E. simpl in E.
  destruct E; discriminate.
Qed.

End FloatOrder.
Import FloatOrder.

(* ================================================================== *)
(** * Facts about [min], [max] and slices *)
(* ================================================================== *)

Section MinMax.

Lemma fold_min_In r : forall x, In (fold_left min_step r x) (x :: r).
Proof.
  induction r as [|y r IH]; intros x; simpl.
  - left. reflexivity.
  - specialize (IH (min_step x y)). simpl in IH.
    unfold min_step in IH at 1. destruct IH as [IH|IH].
    + destruct (flt y x); [right; left | left]; exact IH.
    + right. right. exact IH.
Qed.

Lemma fold_max_In r : forall x, In (fold_left max_step r x) (x :: r).
Proof.
  induction r as [|y r IH]; intros x; simpl.
  - left. reflexivity.
  - specialize (IH (max_step x y)). simpl in IH.
    unfold max_step in IH at 1. destruct IH as [IH|IH].
    + destruct (fgt y x); [right; left | left]; exact IH.
    + right. right. exact IH.
Qed.

Lemma min_step_number x y :
  is_nan x = false -> is_nan y = false -> is_nan (min_step x y) = false.
Proof. unfold min_step. destruct (flt y x); auto. Qed.

Lemma max_step_number x y :
  is_nan x = false -> is_nan y = false -> is_nan (max_step x y) = false.
Proof. unfold max_step. destruct (fgt y x); auto. Qed.

Lemma min_step_le x y :
  is_nan x = false -> is_nan y = false ->
  fle (min_step x y) x = true /\ fle (min_step x y) y = true.
Proof.
  intros Hx Hy. unfold min_step. destruct (flt y x) eqn:E.
  - split; [apply flt_fle, E | apply fle_refl, Hy].
  - split; [apply fle_refl, Hx | apply not_flt_fle; assumption].
Qed.

Lemma max_step_ge x y :
  is_nan x = false -> is_nan y = false ->
  fle x (max_step x y) = true /\ fle y (max_step x y) = true.
Proof.
  intros Hx Hy. unfold max_step, fgt.
  change (PrimFloat.ltb x y) with (flt x y). destruct (flt x y) eqn:E.
  - split; [apply flt_fle, E | apply fle_refl, Hy].
  - split; [apply fle_refl, Hx | apply not_flt_fle; assumption].
Qed.

Lemma fold_min_lower r : forall x,
  is_nan x = false -> (forall y, In y r -> is_nan y = false) ->
  forall z, In z (x :: r) -> fle (fold_left min_step r x) z = true.
Proof.
  induction r as [|y r IH]; intros x Hx Hr z Hz; simpl.
  - destruct Hz as [<-|[]]. apply fle_refl, Hx.
  - assert (Hy : is_nan y = false) by (apply Hr; left; reflexivity).
    destruct (min_step_le x y Hx Hy) as [L1 L2].
    assert (Hm : is_nan (min_step x y) = false)
      by (apply min_step_number; assumption).
    assert (Hr' : forall t, In t r -> is_nan t = false)
      by (intros t Ht; apply Hr; right; exact Ht).
    assert (H0 : fle (fold_left min_step r (min_step x y)) (min_step x y) = true)
      by (apply IH; auto; left; reflexivity).
    destruct Hz as [<-|[<-|Hz]].
    + eapply fle_trans; eassumption.
    + eapply fle_trans; eassumption.
    + apply IH; auto. right. exact Hz.
Qed.

Lemma fold_max_upper r : forall x,
  is_nan x = false -> (forall y, In y r -> is_nan y = false) ->
  forall z, In z (x :: r) -> fle z (fold_left max_step r x) = true.
Proof.
  induction r as [|y r IH]; intros x Hx Hr z Hz; simpl.
  - destruct Hz as [<-|[]]. apply fle_refl, Hx.
  - assert (Hy : is_nan y = false) by (apply Hr; left; reflexivity).
    destruct (max_step_ge x y Hx Hy) as [L1 L2].
    assert (Hm : is_nan (max_step x y) = false)
      by (apply max_step_number; assumption).
    assert (Hr' : forall t, In t r -> is_nan t = false)
      by (intros t Ht; apply Hr; right; exact Ht).
    assert (H0 : fle (max_step x y) (fold_left max_step r (max_step x y)) = true)
      by (apply IH; auto; left; reflexivity).
    destruct Hz as [<-|[<-|Hz]].
    + eapply fle_trans; eassumption.
    + eapply fle_trans; eassumption.
    + apply IH; auto. right. exact Hz.
Qed.

(** On a list of numbers, [min] returns the minimum. *)
Lemma py_min_spec l :
  (forall y, In y l -> is_nan y = false) -> minimum_or_absent (py_min l) l.
Proof.
  destruct l as [|x r]; simpl; intros H; [reflexivity|]. split.
  - apply (fold_min_In r x).
  - intros z Hz. apply fold_min_lower; auto.
Qed.

Lemma py_max_spec l :
  (forall y, In y l -> is_nan y = false) -> maximum_or_absent (py_max l) l.
Proof.
  destruct l as [|x r]; simpl; intros H; [reflexivity|]. split.
  - apply (fold_max_In r x).
  - intros z Hz. apply fold_max_upper; auto.
Qed.

Lemma py_min_In l m : py_min l = Some m -> In m l.
Proof.
  destruct l as [|x r]; simpl; intros H; [discriminate|].
  injection H as <-. apply (fold_min_In r x).
Qed.

Lemma py_max_In l m : py_max l = Some m -> In m l.
Proof.
  destruct l as [|x r]; simpl; intros H; [discriminate|].
  injection H as <-. apply (fold_max_In r x).
Qed.

End MinMax.

Section Slices.

Context {A : Type}.

Lemma most_recent_length (k : nat) (l : list A) :
  List.length (most_recent k l) = Nat.min k (List.length l).
Proof. unfold most_recent. rewrite length_skipn. lia. Qed.

Lemma most_recent_all (k : nat) (l : list A) :
  (List.length l <= k)%nat -> most_recent k l = l.
Proof.
  intros H. unfold most_recent.
  replace (List.length l - k)%nat with 0%nat by lia. reflexivity.
Qed.

(** A negative start [-k] selects the [k] most recent items. *)
Lemma slice_from_neg (l : list A) (k : Z) :
  0 < k -> slice_from l (- k) = most_recent (Z.to_nat k) l.
Proof.
  intros Hk. unfold slice_from, most_recent.
  destruct (Z.ltb_spec (- k) 0); [|lia]. f_equal. lia.
Qed.

Lemma skipn_app_le (n : nat) (a b : list A) :
  (n <= List.length a)%nat -> skipn n (a ++ b) = skipn n a ++ b.
Proof.
  intros H. rewrite skipn_app.
  replace (n - List.length a)%nat with 0%nat by lia. reflexivity.
Qed.

(** Trimming to [k] after every append keeps the [k] most recent. *)
Lemma most_recent_app (k : nat) (a b : list A) :
  most_recent k (most_recent k a ++ b) = most_recent k (a ++ b).
Proof.
  unfold most_recent.
  rewrite !length_app, length_skipn.
  destruct (Nat.le_gt_cases (List.length a) k) as [H|H].
  - replace (List.length a - k)%nat with 0%nat by lia. simpl.
    f_equal. lia.
  - destruct (Nat.le_gt_cases (List.length b) k) as [Hb|Hb].
    + rewrite (skipn_app_le _ (skipn _ a) b) by (rewrite length_skipn; lia).
      rewrite (skipn_app_le _ a b) by lia.
      rewrite skipn_skipn. f_equal. f_equal. lia.
    + rewrite !skipn_app, length_skipn.
      rewrite (skipn_all2 (skipn _ a)) by (rewrite length_skipn; lia).
      rewrite (skipn_all2 a) by lia. simpl.
      f_equal. lia.
Qed.

(** With at least [k] new items, nothing older is left. *)
Lemma most_recent_app_ge (k : nat) (a b : list A) :
  (k <= List.length b)%nat -> most_recent k (a ++ b) = most_recent k b.
Proof.
  intros H. unfold most_recent. rewrite length_app, skipn_app.
  rewrite (skipn_all2 a) by lia. simpl. f_equal. lia.
Qed.

End Slices.

(* ================================================================== *)
(** * The swing loop *)
(* ================================================================== *)

Section Swings.

Variable w : list PricePoint.

Lemma swing_step_eq acc i :
  swing_step w acc i = (fst acc ++ highs_at w i, snd acc ++ lows_at w i).
Proof.
  unfold swing_step, highs_at, lows_at. destruct acc as [hs ls]. simpl.
  destruct (nth_error w (i - 1)), (nth_error w i), (nth_error w (i + 1));
    rewrite ?app_nil_r; try reflexivity.
  destruct (_ && _)%bool, (_ && _)%bool; rewrite ?app_nil_r; reflexivity.
Qed.

Lemma fold_swing_step idxs : forall acc,
  fold_left (swing_step w) idxs acc =
  (fst acc ++ flat_map (highs_at w) idxs,
   snd acc ++ flat_map (lows_at w) idxs).
Proof.
  induction idxs as [|i r IH]; intros [hs ls]; simpl.
  - rewrite !app_nil_r. reflexivity.
  - rewrite IH, swing_step_eq. simpl. rewrite <- !app_assoc. reflexivity.
Qed.

Lemma find_swings_eq :
  find_swings w =
  (flat_map (highs_at w) (seq 1 (List.length w - 2)),
   flat_map (lows_at w) (seq 1 (List.length w - 2))).
Proof. unfold find_swings. rewrite fold_swing_step. reflexivity. Qed.

Lemma highs_at_spec i h :
  (1 <= i)%nat /\ In h (highs_at w i) <-> swing_high_at w i h.
Proof.
  unfold highs_at, swing_high_at. split.
  - intros [Hi H].
    destruct (nth_error w (i - 1)) as [p|]; [|destruct H].
    destruct (nth_error w i) as [c|]; [|destruct H].
    destruct (nth_error w (i + 1)) as [n|]; [|destruct H].
    destruct (fgt (high c) (high p)) eqn:E1; [|destruct H].
    destruct (fgt (high c) (high n)) eqn:E2; [|destruct H].
    simpl in H. destruct H as [<-|[]].
    exists p, c, n. repeat split; auto.
  - intros (p & c & n & Hi & -> & -> & -> & E1 & E2 & ->).
    rewrite E1, E2. simpl. auto.
Qed.

Lemma lows_at_spec i l :
  (1 <= i)%nat /\ In l (lows_at w i) <-> swing_low_at w i l.
Proof.
  unfold lows_at, swing_low_at. split.
  - intros [Hi H].
    destruct (nth_error w (i - 1)) as [p|]; [|destruct H].
    destruct (nth_error w i) as [c|]; [|destruct H].
    destruct (nth_error w (i + 1)) as [n|]; [|destruct H].
    destruct (flt (low c) (low p)) eqn:E1; [|destruct H].
    destruct (flt (low c) (low n)) eqn:E2; [|destruct H].
    simpl in H. destruct H as [<-|[]].
    exists p, c, n. repeat split; auto.
  - intros (p & c & n & Hi & -> & -> & -> & E1 & E2 & ->).
    rewrite E1, E2. simpl. auto.
Qed.

Lemma interior_index i x :
  (1 <= i)%nat -> nth_error w (i + 1) = Some x ->
  In i (seq 1 (List.length w - 2)).
Proof.
  intros Hi H. apply in_seq.
  assert (i + 1 < List.length w)%nat
    by (apply nth_error_Some; congruence).
  lia.
Qed.

(** The loop collects exactly the highs of the swing highs ... *)
Lemma swing_highs_spec h :
  In h (fst (find_swings w)) <-> exists i, swing_high_at w i h.
Proof.
  rewrite find_swings_eq. simpl. rewrite in_flat_map. split.
  - intros (i & Hi & H). exists i. apply highs_at_spec.
    apply in_seq in Hi. split; [lia | exact H].
  - intros (i & H). exists i.
    pose proof H as (p & c & n & Hi & _ & _ & Hn & _).
    apply highs_at_spec in H. split; [|tauto].
    eapply interior_index; eassumption.
Qed.

(** ... and the lows of the swing lows. *)
Lemma swing_lows_spec l :
  In l (snd (find_swings w)) <-> exists i, swing_low_at w i l.
Proof.
  rewrite find_swings_eq. simpl. rewrite in_flat_map. split.
  - intros (i & Hi & H). exists i. apply lows_at_spec.
    apply in_seq in Hi. split; [lia | exact H].
  - intros (i & H). exists i.
    pose proof H as (p & c & n & Hi & _ & _ & Hn & _).
    apply lows_at_spec in H. split; [|tauto].
    eapply interior_index; eassumption.
Qed.

(** A swing value won a comparison, so it is a number. *)
Lemma swing_highs_number h :
  In h (fst (find_swings w)) -> is_nan h = false.
Proof.
  intros H. apply swing_highs_spec in H.
  destruct H as (i & p & c & n & _ & _ & _ & _ & E & _ & ->).
  apply fgt_not_nan in E. tauto.
Qed.

Lemma swing_lows_number l :
  In l (snd (find_swings w)) -> is_nan l = false.
Proof.
  intros H. apply swing_lows_spec in H.
  destruct H as (i & p & c & n & _ & _ & _ & _ & E & _ & ->).
  apply flt_not_nan in E. tauto.
Qed.

End Swings.

(** The detector only proposes numbers. *)
Lemma detect_number s a b :
  detect_support_resistance s = (Some a, Some b) ->
  is_nan a = false /\ is_nan b = false.
Proof.
  unfold detect_support_resistance.
  destruct (_ <? _); [discriminate|]. intros H.
  injection H as Ha Hb. split.
  - eapply swing_lows_number, py_min_In, Ha.
  - eapply swing_highs_number, py_max_In, Hb.
Qed.

(* ================================================================== *)
(** * Invariants of the reachable states *)
(* ================================================================== *)

Lemma no_trade_wf : trade_wf no_trade.
Proof. intros H. discriminate H. Qed.

Lemma add_price_data_buffer s h l c ts now :
  price_data (add_price_data s h l c ts now) =
  most_recent (Z.to_nat max_data_points)
    (price_data s ++
     [mkPoint h l c (match ts with None => now | Some t => t end)]).
Proof.
  unfold add_price_data.
  destruct (Z.ltb_spec max_data_points
              (Z.of_nat (List.length (price_data s ++
                 [mkPoint h l c (match ts with None => now | Some t => t end)]))))
    as [H|H]; unfold set_price_data; cbn [price_data].
  - apply (slice_from_neg _ max_data_points). reflexivity.
  - symmetry. apply most_recent_all.
    unfold max_data_points in *. lia.
Qed.

Lemma add_price_data_bounded s h l c ts now :
  buffer_bounded (add_price_data s h l c ts now).
Proof.
  unfold buffer_bounded. rewrite add_price_data_buffer.
  rewrite most_recent_length. unfold max_data_points. lia.
Qed.

Lemma add_price_data_inv s h l c ts now :
  Inv s -> Inv (add_price_data s h l c ts now).
Proof.
  intros (T & L & B). repeat split.
  - unfold add_price_data. destruct (_ <? _); exact T.
  - unfold add_price_data. destruct (_ <? _); exact L.
  - unfold buffer_bounded. rewrite add_price_data_buffer.
    rewrite most_recent_length. unfold max_data_points. lia.
Qed.

Lemma update_levels_inv s : Inv s -> Inv (fst (update_levels s)).
Proof.
  intros (T & L & B). unfold update_levels.
  destruct (levels_locked s); [repeat split; assumption|].
  destruct (detect_support_resistance s) as [[a|] [b|]] eqn:D;
    try (repeat split; assumption).
  destruct (fge a b) eqn:E; [repeat split; assumption|].
  repeat split; try assumption.
  intros a' b' Ha Hb. simpl in Ha, Hb.
  injection Ha as <-. injection Hb as <-.
  destruct (detect_number _ _ _ D). apply not_fge_flt; assumption.
Qed.

Lemma enter_trade_inv s dir entry qty oid now :
  Inv s -> Inv (fst (enter_trade s dir entry qty oid now)).
Proof.
  intros (T & L & B). unfold enter_trade.
  destruct (is_active (active_trade s)); [repeat split; assumption|].
  destruct (String.eqb dir "long"); simpl;
    (repeat split; try assumption; intros _; simpl; eauto 10).
Qed.

Lemma exit_trade_inv s p reason oid now :
  Inv s -> Inv (fst (exit_trade s p reason oid now)).
Proof.
  intros (T & L & B). unfold exit_trade.
  destruct (negb _); [repeat split; assumption|].
  destruct (entry_price _); [|repeat split; assumption].
  destruct (compute_pnl _ _ _ _) as [[x y]|e]; [|repeat split; assumption].
  simpl. repeat split; try assumption.
  - apply no_trade_wf.
  - intros a b Ha. discriminate Ha.
Qed.

Lemma reset_strategy_inv s : Inv (reset_strategy s).
Proof.
  repeat split.
  - apply no_trade_wf.
  - intros a b Ha. discriminate Ha.
  - unfold buffer_bounded, max_data_points. simpl. lia.
Qed.

Lemma call_inv s now o : Inv s -> Inv (fst (call s now o)).
Proof.
  intros H. destruct o; simpl; try exact H.
  - apply add_price_data_inv, H.
  - pose proof (update_levels_inv s H) as H'.
    destruct (update_levels s). exact H'.
  - pose proof (enter_trade_inv s dir entry qty oid now H) as H'.
    destruct (enter_trade s dir entry qty oid now). exact H'.
  - pose proof (exit_trade_inv s exit_price reason exit_oid now H) as H'.
    destruct (exit_trade s exit_price reason exit_oid now). exact H'.
  - apply reset_strategy_inv.
Qed.

Lemma reachable_inv s : reachable s -> Inv s.
Proof.
  induction 1 as [sym lookback pt sl | s now o _ IH].
  - repeat split.
    + apply no_trade_wf.
    + intros a b Ha. discriminate Ha.
    + unfold buffer_bounded, max_data_points. simpl. lia.
  - apply call_inv, IH.
Qed.

Lemma run_reachable calls : forall s, reachable s -> reachable (run s calls).
Proof.
  induction calls as [|[now o] rest IH]; intros s H; simpl.
  - exact H.
  - apply IH. constructor. exact H.
Qed.

(* ================================================================== *)
(** * What a successful exit did *)
(* ================================================================== *)

(** The P&L differences of the two branches of [exit_trade]. *)
Lemma exit_trade_success s price reason oid now s' sm :
  exit_trade s price reason oid now = (s', Ok (Some sm)) ->
  exists entry q,
    is_active (active_trade s) = true /\
    entry_price (active_trade s) = Some entry /\
    float_of_int (quantity (active_trade s)) = Ok q /\
    sm = mkSummary (symbol s) (direction (active_trade s)) entry price
           (quantity (active_trade s)) (entry_time (active_trade s)) now
           reason
           (round2 ((if is_long (direction (active_trade s))
                     then price - entry else entry - price) * q)%float)
           (round2 ((if is_long (direction (active_trade s))
                     then price - entry else entry - price) / entry * 100)%float)
           (order_id (active_trade s)) oid /\
    s' = set_levels
           (set_levels_locked (set_active_trade s no_trade) false) None None.
Proof.
  unfold exit_trade.
  destruct (is_active (active_trade s)) eqn:A; cbn [negb];
    [|intros H; discriminate H].
  destruct (entry_price (active_trade s)) as [entry|];
    [|intros H; discriminate H].
  unfold compute_pnl.
  destruct (float_of_int (quantity (active_trade s))) as [q|e];
    [|intros H; discriminate H].
  unfold fdiv. destruct (PrimFloat.eqb entry 0); [intros H; discriminate H|].
  intros H. injection H as <- <-. exists entry, q.
  destruct (is_long (direction (active_trade s))); repeat split; reflexivity.
Qed.

(** An exit that does not succeed leaves the instance as it was. *)
Lemma exit_trade_failure s price reason oid now :
  (forall sm, snd (exit_trade s price reason oid now) <> Ok (Some sm)) ->
  fst (exit_trade s price reason oid now) = s.
Proof.
  unfold exit_trade.
  destruct (negb _); [reflexivity|].
  destruct (entry_price _); [|reflexivity].
  destruct (compute_pnl _ _ _ _) as [[x y]|e]; [|reflexivity].
  simpl. intros H. exfalso. eapply H. reflexivity.
Qed.

(* ================================================================== *)
(** * Calls under a lock *)
(* ================================================================== *)

Lemma locked_call s now o :
  levels_locked s = true -> keeps_trade s now o ->
  levels_locked (fst (call s now o)) = true /\
  support_level (fst (call s now o)) = support_level s /\
  resistance_level (fst (call s now o)) = resistance_level s.
Proof.
  intros L K. destruct o; simpl in *.
  - unfold add_price_data. destruct (_ <? _); simpl; auto.
  - unfold update_levels. rewrite L. simpl. auto.
  - auto.
  - unfold enter_trade. destruct (is_active _); [simpl; auto|].
    destruct (String.eqb dir "long"); simpl; auto.
  - auto.
  - pose proof (exit_trade_failure s exit_price reason exit_oid now K) as E.
    destruct (exit_trade s exit_price reason exit_oid now) as [s1 r].
    simpl in *. subst s1. auto.
  - destruct K.
Qed.

Lemma locked_run calls : forall s,
  levels_locked s = true -> keeps_trade_run s calls ->
  levels_locked (run s calls) = true /\
  support_level (run s calls) = support_level s /\
  resistance_level (run s calls) = resistance_level s.
Proof.
  induction calls as [|[now o] rest IH]; intros s L K; simpl.
  - auto.
  - destruct K as [K1 K2].
    destruct (locked_call s now o L K1) as (L1 & S1 & R1).
    destruct (IH _ L1 K2) as (L2 & S2 & R2).
    rewrite S2, R2. auto.
Qed.

(* ================================================================== *)
(** * Ingest sequences *)
(* ================================================================== *)

Lemma ingest_buffer ticks : forall s,
  buffer_bounded s ->
  price_data (ingest s ticks) =
  most_recent (Z.to_nat max_data_points)
              (price_data s ++ map tick_point ticks).
Proof.
  unfold ingest.
  induction ticks as [|t rest IH]; intros s B; simpl.
  - rewrite app_nil_r. symmetry. apply most_recent_all.
    unfold buffer_bounded, max_data_points in *. lia.
  - rewrite IH by apply add_price_data_bounded.
    rewrite add_price_data_buffer, most_recent_app, <- app_assoc.
    reflexivity.
Qed.

(* ================================================================== *)
(** * More on float comparison *)
(* ================================================================== *)

Lemma SFcompare_lt_trans a b c :
  SFcompare a b = Some Lt -> SFcompare b c = Some Lt ->
  SFcompare a c = Some Lt.
Proof.
  destruct a as [sa|sa| |sa ma ea], b as [sb|sb| |sb mb eb],
           c as [sc|sc| |sc mc ec];
    simpl; try congruence;
    try (destruct sa; congruence);
    try (destruct sb; congruence);
    try (destruct sc; congruence);
    try (destruct sa, sb; congruence);
    try (destruct sa, sc; congruence);
    try (destruct sb, sc; congruence);
    try (destruct sa, sb, sc; congruence).
  destruct sa, sb, sc; try congruence;
    destruct (Z.compare_spec ea eb), (Z.compare_spec eb ec),
             (Z.compare_spec ea ec);
    try lia; try congruence; subst;
    change (Pos.compare_cont Eq) with Pos.compare;
    destruct (Pos.compare_spec ma mb), (Pos.compare_spec mb mc),
             (Pos.compare_spec ma mc);
    simpl; try lia; try congruence.
Qed.

Lemma flt_trans a b c : flt a b = true -> flt b c = true -> flt a c = true.
Proof. rewrite !flt_cmp. apply SFcompare_lt_trans. Qed.

Lemma flt_asym a b : flt a b = true -> flt b a = false.
Proof.
  rewrite flt_cmp. intros H. destruct (flt b a) eqn:E; [|reflexivity].
  apply flt_cmp in E. rewrite cmp_antisym, H in E. discriminate E.
Qed.

(** NaN loses every comparison, on either side. *)
Lemma nan_decoded p : is_nan p = true -> Prim2SF p = S754_nan.
Proof. intros H. unfold Prim2SF. rewrite H. reflexivity. Qed.

Lemma nan_flt_l p x : is_nan p = true -> flt p x = false.
Proof.
  intros H. unfold flt. rewrite ltb_spec, (nan_decoded p H). reflexivity.
Qed.

Lemma nan_flt_r p x : is_nan p = true -> flt x p = false.
Proof.
  intros H. unfold flt. rewrite ltb_spec, (nan_decoded p H).
  unfold SFltb. destruct (Prim2SF x); reflexivity.
Qed.

Lemma nan_fle_l p x : is_nan p = true -> fle p x = false.
Proof.
  intros H. unfold fle. rewrite leb_spec, (nan_decoded p H). reflexivity.
Qed.

Lemma nan_fle_r p x : is_nan p = true -> fle x p = false.
Proof.
  intros H. unfold fle. rewrite leb_spec, (nan_decoded p H).
  unfold SFleb. destruct (Prim2SF x); reflexivity.
Qed.

(* ================================================================== *)
(** * Further invariants of the reachable states *)
(* ================================================================== *)

Lemma init_inv2 sym lookback pt sl : Inv2 (init sym lookback pt sl).
Proof.
  split; [reflexivity|]. split; [intros _; reflexivity|].
  split; intros x H; discriminate H.
Qed.

Lemma call_inv2 s now o : Inv2 s -> Inv2 (fst (call s now o)).
Proof.
  intros (L & B & N1 & N2). destruct o; simpl; try (repeat split; assumption).
  - unfold add_price_data. destruct (_ <? _); repeat split; assumption.
  - unfold update_levels.
    destruct (levels_locked s) eqn:E; [repeat split; assumption|].
    destruct (detect_support_resistance s) as [[a|] [b|]] eqn:D;
      try (repeat split; assumption).
    destruct (fge a b); [repeat split; assumption|].
    destruct (detect_number _ _ _ D) as [Na Nb].
    split; [exact L|]. split; [exact B|].
    split; intros x H; simpl in H; injection H as <-; assumption.
  - unfold enter_trade.
    destruct (is_active (active_trade s)) eqn:A; [repeat split; assumption|].
    destruct (String.eqb dir "long"); simpl;
      (split; [reflexivity|]; split; [intros H; discriminate H|];
       split; assumption).
  - unfold exit_trade.
    destruct (negb _); [repeat split; assumption|].
    destruct (entry_price _); [|repeat split; assumption].
    destruct (compute_pnl _ _ _ _) as [[x y]|e]; [|repeat split; assumption].
    simpl. split; [reflexivity|]. split; [intros _; reflexivity|].
    split; intros z H; discriminate H.
  - split; [reflexivity|]. split; [intros _; reflexivity|].
    split; intros z H; discriminate H.
Qed.

Lemma reachable_inv2 s : reachable s -> Inv2 s.
Proof.
  induction 1 as [sym lookback pt sl | s now o _ IH].
  - apply init_inv2.
  - apply call_inv2, IH.
Qed.

(** No call touches the constructor parameters. *)
Lemma call_same_params s now o : same_params (fst (call s now o)) s.
Proof.
  destruct o; simpl; try (repeat split; reflexivity).
  - unfold add_price_data. destruct (_ <? _); repeat split; reflexivity.
  - unfold update_levels. destruct (levels_locked s); [repeat split; reflexivity|].
    destruct (detect_support_resistance s) as [[a|] [b|]];
      try (repeat split; reflexivity).
    destruct (fge a b); repeat split; reflexivity.
  - unfold enter_trade. destruct (is_active _); [repeat split; reflexivity|].
    destruct (String.eqb dir "long"); repeat split; reflexivity.
  - unfold exit_trade. destruct (negb _); [repeat split; reflexivity|].
    destruct (entry_price _); [|repeat split; reflexivity].
    destruct (compute_pnl _ _ _ _) as [[x y]|e]; repeat split; reflexivity.
Qed.

Lemma run_same_params calls : forall s, same_params (run s calls) s.
Proof.
  induction calls as [|[now o] rest IH]; intros s; simpl.
  - repeat split; reflexivity.
  - destruct (IH (fst (call s now o))) as (A & B & C & D).
    destruct (call_same_params s now o) as (A' & B' & C' & D').
    repeat split; congruence.
Qed.

(** The detector reads the buffer and the lookback only. *)
Lemma detect_set_levels s a b :
  detect_support_resistance (set_levels s a b) = detect_support_resistance s.
Proof. reflexivity. Qed.

(** The window is part of the buffer. *)
Lemma slice_from_incl {A : Type} (l : list A) (k : Z) (x : A) :
  In x (slice_from l k) -> In x l.
Proof.
  unfold slice_from. intros H.
  rewrite <- (firstn_skipn (Z.to_nat
    (if k <? 0 then Z.max (Z.of_nat (List.length l) + k) 0
     else Z.min k (Z.of_nat (List.length l)))) l).
  apply in_or_app. right. exact H.
Qed.

Lemma slice_from_length {A : Type} (l : list A) (k : Z) :
  (List.length (slice_from l k) <= List.length l)%nat.
Proof. unfold slice_from. rewrite length_skipn. lia. Qed.

(** A swing is a candle of the window, and the window has an interior. *)
Lemma swing_low_candle w i l :
  swing_low_at w i l ->
  (3 <= List.length w)%nat /\ exists p, In p w /\ l = low p.
Proof.
  intros (p & c & n & Hi & _ & Hc & Hn & _ & _ & ->). split.
  - assert (i + 1 < List.length w)%nat by (apply nth_error_Some; congruence).
    lia.
  - exists c. split; [eapply nth_error_In; eassumption | reflexivity].
Qed.

Lemma swing_high_candle w i h :
  swing_high_at w i h ->
  (3 <= List.length w)%nat /\ exists p, In p w /\ h = high p.
Proof.
  intros (p & c & n & Hi & _ & Hc & Hn & _ & _ & ->). split.
  - assert (i + 1 < List.length w)%nat by (apply nth_error_Some; congruence).
    lia.
  - exists c. split; [eapply nth_error_In; eassumption | reflexivity].
Qed.

(** What a detected pair of levels tells about the buffer. *)
Lemma detect_some s a b :
  detect_support_resistance s = (Some a, Some b) ->
  lookback_period s + 2 <= Z.of_nat (List.length (price_data s)) /\
  (3 <= List.length (price_data s))%nat /\
  (exists p, In p (price_data s) /\ a = low p) /\
  (exists q, In q (price_data s) /\ b = high q).
Proof.
  unfold detect_support_resistance.
  destruct (Z.ltb_spec (Z.of_nat (List.length (price_data s)))
                       (lookback_period s + 2)) as [H|H];
    [intros E; discriminate E|].
  intros E. injection E as Ea Eb.
  apply py_min_In, swing_lows_spec in Ea. destruct Ea as [i Ea].
  apply py_max_In, swing_highs_spec in Eb. destruct Eb as [j Eb].
  destruct (swing_low_candle _ _ _ Ea) as (L & p & Hp & ->).
  destruct (swing_high_candle _ _ _ Eb) as (_ & q & Hq & ->).
  split; [exact H|]. split.
  - pose proof (slice_from_length (price_data s) (- lookback_period s - 2)).
    lia.
  - split; [exists p | exists q]; (split; [|reflexivity]);
      eapply slice_from_incl; eassumption.
Qed.

(* ================================================================== *)
(** * Facts about the registry *)
(* ================================================================== *)

Lemma upper_ascii_idem c : upper_ascii (upper_ascii c) = upper_ascii c.
Proof. destruct c as [[] [] [] [] [] [] [] []]; reflexivity. Qed.

Lemma is_ascii_upper_ascii c :
  is_ascii_char (upper_ascii c) = is_ascii_char c.
Proof. destruct c as [[] [] [] [] [] [] [] []]; reflexivity. Qed.

(** Upper-casing an ASCII string gives an ASCII string. *)
Lemma is_ascii_upper s : is_ascii (upper s) = is_ascii s.
Proof.
  induction s as [|c r IH]; simpl; [reflexivity|].
  rewrite is_ascii_upper_ascii, IH. reflexivity.
Qed.

Lemma upper_idem s : upper (upper s) = upper s.
Proof.
  induction s as [|c r IH]; simpl; [reflexivity|].
  rewrite upper_ascii_idem, IH. reflexivity.
Qed.

Lemma reg_lookup_app k r k' s :
  reg_lookup k (r ++ [(k', s)]) =
  match reg_lookup k r with
  | Some x => Some x
  | None => if String.eqb k k' then Some s else None
  end.
Proof.
  induction r as [|[k0 s0] rest IH]; simpl; [reflexivity|].
  destruct (String.eqb k k0); [reflexivity | exact IH].
Qed.

Lemma reg_lookup_delete_same k r : reg_lookup k (reg_delete k r) = None.
Proof.
  induction r as [|[k0 s0] rest IH]; simpl; [reflexivity|].
  destruct (String.eqb k k0) eqn:E; simpl; [exact IH|].
  rewrite E. exact IH.
Qed.

Lemma reg_lookup_delete_other k k' r :
  k' <> k -> reg_lookup k' (reg_delete k r) = reg_lookup k' r.
Proof.
  intros N. induction r as [|[k0 s0] rest IH]; simpl; [reflexivity|].
  destruct (String.eqb_spec k k0) as [<-|D]; simpl.
  - apply String.eqb_neq in N. rewrite N. exact IH.
  - rewrite IH. reflexivity.
Qed.

Lemma reg_lookup_store k' k s r :
  reg_lookup k' (reg_store k s r) =
  if String.eqb k' k then Some s else reg_lookup k' r.
Proof.
  induction r as [|[k0 s0] rest IH]; simpl.
  - destruct (String.eqb k' k); reflexivity.
  - destruct (String.eqb_spec k k0) as [<-|D]; simpl.
    + destruct (String.eqb k' k); reflexivity.
    + rewrite IH. destruct (String.eqb_spec k' k0) as [->|D'].
      * apply String.eqb_neq in D. rewrite String.eqb_sym, D. reflexivity.
      * reflexivity.
Qed.

Lemma reg_lookup_In k s r : reg_lookup k r = Some s -> In (k, s) r.
Proof.
  induction r as [|[k0 s0] rest IH]; simpl; [intros H; discriminate H|].
  destruct (String.eqb_spec k k0) as [->|D].
  - intros H. injection H as <-. left. reflexivity.
  - intros H. right. apply IH, H.
Qed.

Lemma reg_lookup_None k r : reg_lookup k r = None -> ~ In k (map fst r).
Proof.
  induction r as [|[k0 s0] rest IH]; simpl; [intros _ []|].
  destruct (String.eqb_spec k k0) as [->|D]; [intros H; discriminate H|].
  intros H [E|I]; [congruence | exact (IH H I)].
Qed.

Lemma reg_store_keys k s s0 r :
  reg_lookup k r = Some s0 -> map fst (reg_store k s r) = map fst r.
Proof.
  induction r as [|[k0 s1] rest IH]; simpl; [intros H; discriminate H|].
  destruct (String.eqb k k0); [reflexivity|].
  intros H. simpl. rewrite IH by exact H. reflexivity.
Qed.

Lemma reg_store_ok k s s0 r :
  reg_lookup k r = Some s0 -> entry_ok (k, s) ->
  Forall entry_ok r -> Forall entry_ok (reg_store k s r).
Proof.
  intros H E F. induction r as [|[k0 s1] rest IH]; simpl in *;
    [discriminate H|].
  inversion F as [|x y F1 F2]; subst.
  destruct (String.eqb_spec k k0) as [->|D].
  - constructor; assumption.
  - constructor; [assumption | apply IH; assumption].
Qed.

Lemma reg_delete_wf k r : reg_wf r -> reg_wf (reg_delete k r).
Proof.
  intros [N F]. unfold reg_delete. split.
  - induction r as [|[k0 s0] rest IH]; simpl; [constructor|].
    inversion N as [|x y N1 N2]; subst. inversion F; subst.
    destruct (negb (String.eqb k k0)); simpl.
    + constructor; [|apply IH; assumption].
      intros I. apply N1. apply in_map_iff in I.
      destruct I as (e & <- & I). apply filter_In in I.
      apply in_map. tauto.
    + apply IH; assumption.
  - apply Forall_forall. intros e I. apply filter_In in I.
    eapply Forall_forall in F; [exact F | tauto].
Qed.

Lemma reg_reachable_wf r : reg_reachable r -> reg_wf r.
Proof.
  induction 1 as [| r sym kw A _ IH | r sym A _ IH | r k s now o _ IH L].
  - split; constructor.
  - unfold get_strategy.
    destruct (reg_lookup (upper sym) r) eqn:E; simpl; [exact IH|].
    destruct IH as [N F]. split.
    + rewrite map_app. simpl.
      apply NoDup_app_remove_l with (l := []). simpl.
      apply (NoDup_Add (a := upper sym) (l := map fst r)).
      * clear. induction (map fst r) as [|x l IH]; simpl; constructor.
        exact IH.
      * split; [exact N | apply reg_lookup_None, E].
    + apply Forall_app. split; [exact F|]. constructor; [|constructor].
      split; [apply upper_idem|].
      split; [cbn [fst]; rewrite is_ascii_upper; exact A|].
      split; [apply upper_idem | apply reach_init].
  - unfold remove_strategy.
    destruct (reg_lookup (upper sym) r); simpl;
      [apply reg_delete_wf, IH | exact IH].
  - destruct IH as [N F]. split.
    + rewrite (reg_store_keys _ _ _ _ L). exact N.
    + apply (reg_store_ok _ _ s); [exact L| |exact F].
      pose proof (reg_lookup_In _ _ _ L) as I.
      eapply Forall_forall in F; [|exact I].
      destruct F as (F1 & F2 & F3 & F4). simpl in *.
      split; [|split; [exact F2|split; [exact F3|]]].
      * destruct (call_same_params s now o) as (A & _). simpl.
        rewrite A. exact F1.
      * simpl. apply reach_call, F4.
Qed.

(* ================================================================== *)
(** * Facts about the webhook *)
(* ================================================================== *)

Lemma breakout_signal_values s price sig :
  check_breakout_signal s price = Ok (Some sig) ->
  sig = "long"%string \/ sig = "short"%string.
Proof.
  unfold check_breakout_signal.
  destruct (is_active _); [intros H; discriminate H|].
  destruct (support_level s) as [a|], (resistance_level s) as [b|];
    try (intros H; discriminate H).
  destruct (fgt price b); [intros H; injection H as <-; auto|].
  destruct (flt price a); intros H; [injection H as <-; auto|discriminate H].
Qed.

Lemma place_order_rejects_signal {World : Type} (K : Kite World) w sym sig qty :
  sig = "long"%string \/ sig = "short"%string ->
  place_order K w sym sig qty =
  (w, OrderError bad_action_message sym sig qty).
Proof. intros [->| ->]; reflexivity. Qed.

Lemma update_levels_trade s :
  active_trade (fst (update_levels s)) = active_trade s /\
  levels_locked (fst (update_levels s)) = levels_locked s.
Proof.
  unfold update_levels. destruct (levels_locked s) eqn:L; [auto|].
  destruct (detect_support_resistance s) as [[a|] [b|]]; auto.
  destruct (fge a b); auto.
Qed.

Lemma add_price_data_trade s h l c ts now :
  active_trade (add_price_data s h l c ts now) = active_trade s /\
  levels_locked (add_price_data s h l c ts now) = levels_locked s.
Proof. unfold add_price_data. destruct (_ <? _); auto. Qed.

(** What the price path does, whatever the broker. *)
Lemma webhook_price_data_eq {World : Type} (K : Kite World) w app sym h l c
    ts qty now_add now_enter :
  let s0 := snd (get_strategy (strategy_instances app) sym no_kwargs) in
  let reg := fst (get_strategy (strategy_instances app) sym no_kwargs) in
  let s2 := fst (update_levels (add_price_data s0 h l c ts now_add)) in
  exists resp,
    webhook_price_data K w app sym h l c ts qty now_add now_enter =
    (w, mkApp (reg_store (upper sym) s2 reg) (monitoring_active app), Ok resp) /\
    r_trade_entered resp <> Some true /\
    r_order_result resp = None /\
    r_levels_updated resp =
      snd (update_levels (add_price_data s0 h l c ts now_add)) /\
    r_support resp = support_level s2 /\
    r_resistance resp = resistance_level s2 /\
    (r_breakout_signal resp = None -> r_trade_entered resp = None) /\
    (forall sig, r_breakout_signal resp = Some sig ->
       check_breakout_signal s2 c = Ok (Some sig) /\
       r_trade_entered resp = Some false /\
       r_order_error resp = Some bad_action_message).
Proof.
  intros s0 reg s2. unfold webhook_price_data.
  destruct (get_strategy (strategy_instances app) sym no_kwargs)
    as [reg' s0'] eqn:G.
  subst s0 reg. cbn [fst snd] in *.
  destruct (update_levels (add_price_data s0' h l c ts now_add))
    as [s2' lu] eqn:U.
  subst s2. cbn [fst snd].
  destruct (check_breakout_signal s2' c) as [[sig|]|e] eqn:B.
  - destruct (breakout_signal_values _ _ _ B) as [->| ->]; cbn [truthy];
      (rewrite place_order_rejects_signal by auto;
       eexists; split; [reflexivity|]; cbn;
       repeat split; try discriminate; try reflexivity; congruence).
  - cbn [truthy]. eexists. split; [reflexivity|]. cbn.
    repeat split; try discriminate; try reflexivity; congruence.
  - exfalso. unfold check_breakout_signal in B.
    destruct (is_active _); [discriminate B|].
    destruct (support_level s2') as [a|], (resistance_level s2') as [b|];
      try discriminate B.
    destruct (fgt c b); [discriminate B|].
    destruct (flt c a); discriminate B.
Qed.

Lemma get_strategy_lookup r sym kw :
  reg_lookup (upper sym) (fst (get_strategy r sym kw))
    = Some (snd (get_strategy r sym kw)) /\
  (forall k, k <> upper sym ->
     reg_lookup k (fst (get_strategy r sym kw)) = reg_lookup k r) /\
  (reg_lookup (upper sym) r = Some (snd (get_strategy r sym kw)) \/
   (reg_lookup (upper sym) r = None /\
    snd (get_strategy r sym kw) = construct (upper sym) kw)).
Proof.
  unfold get_strategy. destruct (reg_lookup (upper sym) r) eqn:E; simpl.
  - repeat split; auto.
  - rewrite reg_lookup_app, E, String.eqb_refl. repeat split; auto.
    intros k N. rewrite reg_lookup_app.
    apply String.eqb_neq in N. rewrite N.
    destruct (reg_lookup k r); reflexivity.
Qed.

Lemma handle_price_event_keeps {World : Type} (K : Kite World) wa ev :
  no_open_trades (strategy_instances (snd wa)) ->
  fst (handle_price_event K wa ev) = fst wa /\
  monitoring_active (snd (handle_price_event K wa ev))
    = monitoring_active (snd wa) /\
  no_open_trades (strategy_instances (snd (handle_price_event K wa ev))).
Proof.
  intros N. unfold handle_price_event.
  destruct (webhook_price_data_eq K (fst wa) (snd wa) (ev_symbol ev)
              (ev_high ev) (ev_low ev) (ev_close ev) (ev_timestamp ev)
              (ev_quantity ev) (ev_now_add ev) (ev_now_enter ev))
    as (resp & -> & _).
  cbn [fst snd strategy_instances monitoring_active].
  split; [reflexivity|]. split; [reflexivity|].
  intros k s. rewrite reg_lookup_store.
  destruct (get_strategy_lookup (strategy_instances (snd wa)) (ev_symbol ev)
              no_kwargs) as (_ & O & S).
  destruct (String.eqb_spec k (upper (ev_symbol ev))) as [->|D].
  - intros H. injection H as <-.
    destruct (update_levels_trade
                (add_price_data
                   (snd (get_strategy (strategy_instances (snd wa))
                           (ev_symbol ev) no_kwargs))
                   (ev_high ev) (ev_low ev) (ev_close ev) (ev_timestamp ev)
                   (ev_now_add ev))) as [-> _].
    destruct (add_price_data_trade
                (snd (get_strategy (strategy_instances (snd wa))
                        (ev_symbol ev) no_kwargs))
                (ev_high ev) (ev_low ev) (ev_close ev) (ev_timestamp ev)
                (ev_now_add ev)) as [-> _].
    destruct S as [S|[_ ->]]; [exact (N _ _ S) | reflexivity].
  - rewrite (O k D). apply N.
Qed.

Lemma feed_keeps {World : Type} (K : Kite World) events : forall wa,
  no_open_trades (strategy_instances (snd wa)) ->
  fst (feed K wa events) = fst wa /\
  monitoring_active (snd (feed K wa events)) = monitoring_active (snd wa) /\
  no_open_trades (strategy_instances (snd (feed K wa events))).
Proof.
  unfold feed.
  induction events as [|ev rest IH]; intros wa N; simpl.
  - auto.
  - destruct (handle_price_event_keeps K wa ev N) as (W & M & N').
    destruct (IH _ N') as (W2 & M2 & N2).
    rewrite W2, M2, W, M. auto.
Qed.

(* ================================================================== *)
(** * Facts about closing trades *)
(* ================================================================== *)

Lemma reg_store_same k s r : reg_lookup k r = Some s -> reg_store k s r = r.
Proof.
  induction r as [|[k0 s0] rest IH]; simpl; [intros H; discriminate H|].
  destruct (String.eqb_spec k k0) as [->|D].
  - intros H. injection H as <-. reflexivity.
  - intros H. rewrite IH by exact H. reflexivity.
Qed.

Lemma exit_signal_values s price reason :
  check_exit_conditions s price = Ok (Some reason) ->
  is_active (active_trade s) = true /\
  (reason = "profit"%string \/ reason = "loss"%string).
Proof.
  unfold check_exit_conditions.
  destruct (is_active (active_trade s)); cbn [negb];
    [|intros H; discriminate H].
  intros H. split; [reflexivity|].
  repeat match type of H with
         | context [match ?x with _ => _ end] => destruct x
         end;
    try discriminate H; injection H as <-; auto.
Qed.

(** The exit action is always one [place_order] knows. *)
Lemma exit_action_valid t :
  lower (exit_action t) = "buy"%string \/ lower (exit_action t) = "sell"%string.
Proof. unfold exit_action. destruct (is_long _); auto. Qed.

Lemma place_order_nonpositive {World : Type} (K : Kite World) w sym t :
  quantity t <= 0 ->
  place_order K w sym (exit_action t) (quantity t) =
  (w, OrderError "Error placing order: Quantity must be greater than 0"
                 sym (exit_action t) (quantity t)).
Proof.
  intros Q. unfold place_order, exit_action.
  destruct (is_long _); cbn [lower lower_ascii String.eqb orb negb];
    (destruct (Z.leb_spec (quantity t) 0); [reflexivity | lia]).
Qed.

(** What one monitor iteration can do to an instance. *)
Lemma monitor_symbol_cases {World : Type} (K : Kite World) (M : Market World)
    w s sym now :
  snd (monitor_symbol K M w s sym now) = s \/
  exists w1 w2 p reason oid osym oact oqty omsg sm,
    get_ltp M w sym = (w1, inl (LtpSuccess p)) /\
    check_exit_conditions s p = Ok (Some reason) /\
    place_order K w1 sym (exit_action (active_trade s))
                (quantity (active_trade s))
      = (w2, OrderSuccess oid osym oact oqty omsg) /\
    exit_trade s p reason (Some oid) now
      = (snd (monitor_symbol K M w s sym now), Ok (Some sm)) /\
    fst (monitor_symbol K M w s sym now) = w2.
Proof.
  unfold monitor_symbol.
  destruct (get_ltp M w sym) as [w1 [[p|m]|e]] eqn:G; auto.
  destruct (check_exit_conditions s p) as [[reason|]|e] eqn:C; auto.
  assert (T : truthy (Some reason) = Some reason)
    by (destruct (exit_signal_values _ _ _ C) as [_ [->| ->]]; reflexivity).
  rewrite T.
  destruct (place_order K w1 sym _ _)
    as [w2 [oid osym oact oqty omsg|emsg esym eact eqty]] eqn:P; auto.
  cbn [snd fst].
  destruct (exit_trade s p reason (Some oid) now) as [s' [[sm|]|e]] eqn:E.
  - right. exists w1, w2, p, reason, oid, osym, oact, oqty, omsg, sm.
    repeat split; auto.
  - left. pose proof (exit_trade_failure s p reason (Some oid) now) as F.
    rewrite E in F. apply F. cbn. intros sm H. discriminate H.
  - left. pose proof (exit_trade_failure s p reason (Some oid) now) as F.
    rewrite E in F. apply F. cbn. intros sm H. discriminate H.
Qed.

(** Exit at an entry price of zero, with a quantity that converts. *)
Lemma zero_entry_exit_raises s entry price reason oid now q :
  is_active (active_trade s) = true ->
  entry_price (active_trade s) = Some entry ->
  PrimFloat.eqb entry 0 = true ->
  float_of_int (quantity (active_trade s)) = Ok q ->
  exit_trade s price reason oid now = (s, Raise ZeroDivisionError).
Proof.
  intros A He Z Q. unfold exit_trade, compute_pnl, fdiv.
  rewrite A, He, Q, Z. reflexivity.
Qed.

Lemma monitor_symbol_closed {World : Type} (K : Kite World)
    (M : Market World) w s sym now :
  snd (monitor_symbol K M w s sym now) = s \/
  ((exists p reason oid sm,
      check_exit_conditions s p = Ok (Some reason) /\
      exit_trade s p reason (Some oid) now
        = (snd (monitor_symbol K M w s sym now), Ok (Some sm))) /\
   symbol (snd (monitor_symbol K M w s sym now)) = symbol s /\
   lookback_period (snd (monitor_symbol K M w s sym now))
     = lookback_period s /\
   profit_target (snd (monitor_symbol K M w s sym now)) = profit_target s /\
   stop_loss (snd (monitor_symbol K M w s sym now)) = stop_loss s /\
   price_data (snd (monitor_symbol K M w s sym now)) = price_data s /\
   active_trade (snd (monitor_symbol K M w s sym now)) = no_trade /\
   levels_locked (snd (monitor_symbol K M w s sym now)) = false /\
   support_level (snd (monitor_symbol K M w s sym now)) = None /\
   resistance_level (snd (monitor_symbol K M w s sym now)) = None).
Proof.
  destruct (monitor_symbol_cases K M w s sym now)
    as [H|(w1 & w2 & p & reason & oid & osym & oact & oqty & omsg & sm
           & _ & C & _ & E & _)];
    [left; exact H|].
  right. split; [exists p, reason, oid, sm; split; assumption|].
  destruct (exit_trade_success _ _ _ _ _ _ _ E)
    as (entry & q & _ & _ & _ & _ & ->).
  repeat split; reflexivity.
Qed.

Lemma place_order_validates_helper {World : Type} (K : Kite World) w sym
    action qty :
  lower action = "buy"%string \/ lower action = "sell"%string ->
  qty <= 0 ->
  place_order K w sym action qty =
  (w, OrderError "Error placing order: Quantity must be greater than 0"
                 sym action qty).
Proof.
  intros V Q. unfold place_order.
  assert (E : (String.eqb (lower action) "buy"
               || String.eqb (lower action) "sell")%bool = true)
    by (destruct V as [-> | ->]; reflexivity).
  rewrite E. cbn [negb].
  destruct (Z.leb_spec qty 0); [reflexivity | lia].
Qed.

(* ================================================================== *)
(** * The sample instances *)
(* ================================================================== *)

Lemma s_fresh_reachable : reachable s_fresh.
Proof. apply reach_init. Qed.

Lemma s_long_reachable : reachable s_long.
Proof. apply run_reachable, s_fresh_reachable. Qed.

Lemma s_short_reachable : reachable s_short.
Proof. apply run_reachable, s_fresh_reachable. Qed.

Lemma s_sampled_reachable : reachable s_sampled.
Proof. apply run_reachable, s_fresh_reachable. Qed.

(** The long trade at 100 has target 103 and stop 99. *)
Example s_long_bounds :
  target_price (active_trade s_long) = Some 103%float /\
  stop_price (active_trade s_long) = Some 99%float.
Proof. split; reflexivity. Qed.

(** The monitoring scenario: 103 is a profit, 99 a loss, 101 neither. *)
Example monitoring_scenario :
  check_exit_conditions s_long 103%float = Ok (Some "profit"%string) /\
  check_exit_conditions s_long 99%float = Ok (Some "loss"%string) /\
  check_exit_conditions s_long 101%float = Ok None.
Proof. repeat split; reflexivity. Qed.

(** The breakout scenario: twelve candles give support 2480 and
    resistance 2515; 2520 breaks out long, 2470 short. *)
Example breakout_scenario :
  support_level s_levels = Some 2480%float /\
  resistance_level s_levels = Some 2515%float /\
  check_breakout_signal s_levels 2520%float = Ok (Some "long"%string) /\
  check_breakout_signal s_levels 2470%float = Ok (Some "short"%string) /\
  check_breakout_signal s_levels 2500%float = Ok None.
Proof. repeat split; vm_compute; reflexivity. Qed.

(** The P&L scenario: long 100 -> 103 and short 100 -> 97, quantity 10,
    both give pnl 30 and 3 percent. *)
Example pnl_scenario :
  (exists s' sm,
     exit_trade s_long 103%float "profit" None clock0 = (s', Ok (Some sm)) /\
     pnl sm = 30%float /\ pnl_percent sm = 3%float) /\
  (exists s' sm,
     exit_trade s_short 97%float "profit" None clock0 = (s', Ok (Some sm)) /\
     pnl sm = 30%float /\ pnl_percent sm = 3%float).
Proof.
  split; eexists; eexists; (split; [vm_compute; reflexivity|]);
    split; reflexivity.
Qed.

(* ================================================================== *)
(** * Exit conditions *)
(* ================================================================== *)

(** C1. On every reachable instance [check_exit_conditions] returns
    [None] when no trade is active; for an active long trade it returns
    ["profit"] if [price >= target] (looked at first), else ["loss"] if
    [price <= stop], else [None]; for an active short trade ["profit"] if
    [price <= target] (looked at first), else ["loss"] if
    [price >= stop], else [None]. *)
Theorem check_exit_conditions_spec (s : Strategy) (price : float) :
  reachable s ->
  (is_active (active_trade s) = false /\
   check_exit_conditions s price = Ok None) \/
  (is_active (active_trade s) = true /\
   exists d target stop,
     direction (active_trade s) = Some d /\
     target_price (active_trade s) = Some target /\
     stop_price (active_trade s) = Some stop /\
     (d = "long"%string ->
      check_exit_conditions s price = Ok (long_exit price target stop)) /\
     (d = "short"%string ->
      check_exit_conditions s price = Ok (short_exit price target stop))).
Proof.
  intros R. destruct (reachable_inv s R) as (T & _ & _).
  unfold check_exit_conditions.
  destruct (is_active (active_trade s)) eqn:A; cbn [negb].
  - right. split; [reflexivity|].
    destruct (T A) as (d & e & tp & sp & Hd & _ & Ht & Hs).
    exists d, tp, sp. rewrite Hd, Ht, Hs. simpl.
    repeat split; intros ->; simpl.
    + unfold long_exit.
      destruct (fge price tp); [reflexivity|].
      destruct (fle price sp); reflexivity.
    + unfold short_exit.
      destruct (fle price tp); [reflexivity|].
      destruct (fge price sp); reflexivity.
  - left. split; reflexivity.
Qed.

Lemma check_exit_conditions_spec_witness :
  reachable s_long /\
  check_exit_conditions s_long 103%float = Ok (Some "profit"%string).
Proof.
  split; [exact s_long_reachable|].
  destruct (check_exit_conditions_spec s_long 103%float s_long_reachable)
    as [[A _]|[_ (d & target & stop & Hd & Ht & Hs & HL & _)]].
  - discriminate A.
  - injection Hd as <-. injection Ht as <-. injection Hs as <-.
    exact (HL eq_refl).
Defined.

(* ================================================================== *)
(** * Breakout detection *)
(* ================================================================== *)

(** C6. [check_breakout_signal] never raises; it returns [None] if a
    trade is active or a level is absent; otherwise ["long"] if
    [price > resistance], else ["short"] if [price < support], else
    [None], resistance being compared first. *)
Theorem check_breakout_signal_spec (s : Strategy) (price : float) :
  (exists r, check_breakout_signal s price = Ok r) /\
  (is_active (active_trade s) = true ->
   check_breakout_signal s price = Ok None) /\
  (support_level s = None \/ resistance_level s = None ->
   check_breakout_signal s price = Ok None) /\
  (forall support resistance,
     is_active (active_trade s) = false ->
     support_level s = Some support ->
     resistance_level s = Some resistance ->
     check_breakout_signal s price =
     Ok (breakout_rule price support resistance)).
Proof.
  unfold check_breakout_signal, breakout_rule. repeat split.
  - destruct (is_active _); [eauto|].
    destruct (support_level s) as [a|], (resistance_level s) as [b|]; eauto.
    destruct (fgt price b); [eauto|]. destruct (flt price a); eauto.
  - intros ->. reflexivity.
  - intros [H|H]; rewrite H; destruct (is_active _); try reflexivity.
    destruct (support_level s); reflexivity.
  - intros a b -> -> ->.
    destruct (fgt price b); [reflexivity|]. destruct (flt price a); reflexivity.
Qed.

(* ================================================================== *)
(** * Trade entry *)
(* ================================================================== *)

(** C3. With no active trade, [enter_trade] succeeds, stores an active
    trade with the given direction, entry price, quantity and order id,
    locks the levels, and sets for a long trade
    [target = entry * (1 + profit_target)], [stop = entry * (1 - stop_loss)],
    for a short trade
    [target = entry * (1 - profit_target)], [stop = entry * (1 + stop_loss)]. *)
Theorem enter_trade_spec (s : Strategy) (dir : string) (entry : float)
    (qty : Z) (oid : option string) (now : string) :
  is_active (active_trade s) = false ->
  exists s' target stop,
    enter_trade s dir entry qty oid now = (s', true) /\
    active_trade s' =
      mkTrade true (Some dir) (Some entry) (Some now) qty oid
              (Some target) (Some stop) /\
    levels_locked s' = true /\
    (dir = "long"%string ->
     target = (entry * (1 + profit_target s))%float /\
     stop = (entry * (1 - stop_loss s))%float) /\
    (dir = "short"%string ->
     target = (entry * (1 - profit_target s))%float /\
     stop = (entry * (1 + stop_loss s))%float).
Proof.
  intros A. unfold enter_trade. rewrite A.
  destruct (String.eqb_spec dir "long") as [E|E].
  - do 3 eexists. split; [reflexivity|].
    split; [reflexivity|]. split; [reflexivity|]. split.
    + intros _. split; reflexivity.
    + intros E'. rewrite E' in E. discriminate E.
  - do 3 eexists. split; [reflexivity|].
    split; [reflexivity|]. split; [reflexivity|]. split.
    + intros E'. contradiction.
    + intros _. split; reflexivity.
Qed.

Lemma enter_trade_spec_witness :
  is_active (active_trade s_fresh) = false /\
  exists s',
    enter_trade s_fresh "long" 100%float 10 None clock0 = (s', true) /\
    target_price (active_trade s') = Some 103%float /\
    stop_price (active_trade s') = Some 99%float /\
    levels_locked s' = true.
Proof.
  split; [reflexivity|].
  destruct (enter_trade_spec s_fresh "long" 100%float 10 None clock0 eq_refl)
    as (s' & target & stop & E & T & L & HL & _).
  destruct (HL eq_refl) as [-> ->].
  exists s'. rewrite T. repeat split; [exact E | exact L].
Defined.

(* ================================================================== *)
(** * Failed entry and exit *)
(* ================================================================== *)

(** C9. [enter_trade] fails (returns [False]) whenever a trade is
    active, [exit_trade] fails (returns the empty summary) whenever none
    is; both leave the whole state as it was. *)
Theorem enter_exit_failure (s : Strategy) (dir : string) (entry : float)
    (qty : Z) (oid : option string) (price : float) (reason : string)
    (exit_oid : option string) (now : string) :
  (is_active (active_trade s) = true ->
   enter_trade s dir entry qty oid now = (s, false)) /\
  (is_active (active_trade s) = false ->
   exit_trade s price reason exit_oid now = (s, Ok None)).
Proof.
  split; intros A.
  - unfold enter_trade. rewrite A. reflexivity.
  - unfold exit_trade. rewrite A. reflexivity.
Qed.

(** C10. The direction is not validated: with any label other than
    ["long"], [enter_trade] activates the trade with the short bounds,
    [check_exit_conditions] applies the short exit rule to a trade stored
    under such a label, and [exit_trade] closes it with the short P&L
    formulas [(entry - exit) * quantity] and
    [(entry - exit) / entry * 100], rounded to two decimals. *)
Theorem direction_not_validated (d : string) :
  d <> "long"%string ->
  (forall s entry qty oid now,
     is_active (active_trade s) = false ->
     exists s',
       enter_trade s d entry qty oid now = (s', true) /\
       active_trade s' =
         mkTrade true (Some d) (Some entry) (Some now) qty oid
                 (Some (entry * (1 - profit_target s))%float)
                 (Some (entry * (1 + stop_loss s))%float)) /\
  (forall s price target stop,
     is_active (active_trade s) = true ->
     direction (active_trade s) = Some d ->
     target_price (active_trade s) = Some target ->
     stop_price (active_trade s) = Some stop ->
     check_exit_conditions s price = Ok (short_exit price target stop)) /\
  (forall s price reason oid now entry q,
     is_active (active_trade s) = true ->
     direction (active_trade s) = Some d ->
     entry_price (active_trade s) = Some entry ->
     float_of_int (quantity (active_trade s)) = Ok q ->
     PrimFloat.eqb entry 0 = false ->
     exists s' sm,
       exit_trade s price reason oid now = (s', Ok (Some sm)) /\
       sum_direction sm = Some d /\
       sum_entry_price sm = entry /\
       sum_exit_price sm = price /\
       pnl sm = round2 ((entry - price) * q)%float /\
       pnl_percent sm = round2 ((entry - price) / entry * 100)%float /\
       active_trade s' = no_trade /\
       levels_locked s' = false /\
       support_level s' = None /\
       resistance_level s' = None) /\
  (forall s price reason oid now s' sm,
     direction (active_trade s) = Some d ->
     exit_trade s price reason oid now = (s', Ok (Some sm)) ->
     exists entry q,
       entry_price (active_trade s) = Some entry /\
       float_of_int (quantity (active_trade s)) = Ok q /\
       pnl sm = round2 ((entry - price) * q)%float /\
       pnl_percent sm = round2 ((entry - price) / entry * 100)%float).
Proof.
  intros N.
  assert (E : String.eqb d "long" = false) by (apply String.eqb_neq, N).
  split; [|split; [|split]].
  - intros s entry qty oid now A. unfold enter_trade. rewrite A, E.
    eexists. split; reflexivity.
  - intros s price target stop A D T S.
    unfold check_exit_conditions. rewrite A, D, T, S. cbn [negb is_long].
    rewrite E. unfold short_exit.
    destruct (fle price target); [reflexivity|].
    destruct (fge price stop); reflexivity.
  - intros s price reason oid now entry q A D He Q Z.
    unfold exit_trade, compute_pnl, fdiv.
    rewrite A, D, He, Q, Z. cbn [negb is_long]. rewrite E.
    eexists. eexists. split; [reflexivity|]. repeat split; reflexivity.
  - intros s price reason oid now s' sm D H.
    destruct (exit_trade_success _ _ _ _ _ _ _ H)
      as (entry & q & _ & He & Hq & -> & _).
    exists entry, q. rewrite D. cbn [is_long]. rewrite E.
    repeat split; assumption.
Qed.

Lemma direction_not_validated_witness :
  "buy"%string <> "long"%string /\
  direction (active_trade s_buy) = Some "buy"%string /\
  target_price (active_trade s_buy) = Some 97%float /\
  stop_price (active_trade s_buy) = Some 101%float /\
  check_exit_conditions s_buy 97%float = Ok (Some "profit"%string) /\
  check_exit_conditions s_buy 101%float = Ok (Some "loss"%string) /\
  exists s' sm,
    exit_trade s_buy 97%float "profit" None clock0 = (s', Ok (Some sm)) /\
    sum_direction sm = Some "buy"%string /\
    pnl sm = 30%float /\ pnl_percent sm = 3%float /\
    is_active (active_trade s') = false.
Proof.
  assert (N : "buy"%string <> "long"%string) by (intros H; discriminate H).
  destruct (direction_not_validated "buy" N) as (HE & HC & HX & _).
  split; [exact N|].
  destruct (HE s_fresh 100%float 10 None clock0 eq_refl) as (s1 & E1 & T1).
  assert (S1 : s1 = s_buy) by (vm_compute in E1; injection E1 as <-; reflexivity).
  subst s1.
  split; [rewrite T1; reflexivity|].
  split; [rewrite T1; reflexivity|].
  split; [rewrite T1; reflexivity|].
  split; [exact (HC s_buy 97%float 97%float 101%float
                    eq_refl eq_refl eq_refl eq_refl)|].
  split; [exact (HC s_buy 101%float 97%float 101%float
                    eq_refl eq_refl eq_refl eq_refl)|].
  destruct (HX s_buy 97%float "profit"%string None clock0 100%float 10%float
               eq_refl eq_refl eq_refl eq_refl eq_refl)
    as (s' & sm & X & D & _ & _ & P & PP & T & _).
  exists s', sm. split; [exact X|]. split; [exact D|].
  split; [rewrite P; reflexivity|]. split; [rewrite PP; reflexivity|].
  rewrite T. reflexivity.
Defined.

(* ================================================================== *)
(** * Trade exit *)
(* ================================================================== *)

(** C2, as stated, fails: the summary holds the P&L rounded to two
    decimals.  A long trade entered at 100 with quantity 1 and exited at
    100.125 has [(exit - entry) * quantity = 0.125], and the summary
    reports 0.12. *)
Lemma exit_pnl_counterexample :
  exists s' sm,
    exit_trade s_long1 100.125%float "manual" None clock0
      = (s', Ok (Some sm)) /\
    direction (active_trade s_long1) = Some "long"%string /\
    entry_price (active_trade s_long1) = Some 100%float /\
    quantity (active_trade s_long1) = 1 /\
    ((100.125 - 100) * 1)%float = 0.125%float /\
    pnl sm = 0.12%float /\
    pnl sm <> ((100.125 - 100) * 1)%float.
Proof.
  eexists. eexists. split; [vm_compute; reflexivity|].
  repeat split; try reflexivity.
  cbn [pnl]. intros H. apply (f_equal Prim2SF) in H.
  vm_compute in H. discriminate H.
Qed.

(** C2, amended. A successful [exit_trade] returns a summary whose [pnl]
    and [pnl_percent] are, rounded to two decimals by [round(., 2)], for
    a long trade [(exit - entry) * quantity] and
    [(exit - entry) / entry * 100], for a short trade the mirrored
    [(entry - exit) * quantity] and [(entry - exit) / entry * 100]; it
    resets the trade to inactive, unlocks the levels and clears support
    and resistance. *)
Theorem exit_trade_spec (s : Strategy) (price : float) (reason : string)
    (oid : option string) (now : string) (s' : Strategy) (sm : TradeSummary) :
  exit_trade s price reason oid now = (s', Ok (Some sm)) ->
  exists entry q,
    is_active (active_trade s) = true /\
    entry_price (active_trade s) = Some entry /\
    float_of_int (quantity (active_trade s)) = Ok q /\
    (direction (active_trade s) = Some "long"%string ->
     pnl sm = round2 ((price - entry) * q)%float /\
     pnl_percent sm = round2 ((price - entry) / entry * 100)%float) /\
    (direction (active_trade s) = Some "short"%string ->
     pnl sm = round2 ((entry - price) * q)%float /\
     pnl_percent sm = round2 ((entry - price) / entry * 100)%float) /\
    active_trade s' = no_trade /\
    levels_locked s' = false /\
    support_level s' = None /\
    resistance_level s' = None.
Proof.
  intros H.
  destruct (exit_trade_success _ _ _ _ _ _ _ H)
    as (entry & q & A & He & Hq & -> & ->).
  exists entry, q. split; [exact A|]. split; [exact He|]. split; [exact Hq|].
  split; [|split].
  - intros ->. split; reflexivity.
  - intros ->. split; reflexivity.
  - repeat split; reflexivity.
Qed.

Lemma exit_trade_spec_witness :
  exists s' sm,
    exit_trade s_long 103%float "profit" None clock0 = (s', Ok (Some sm)) /\
    pnl sm = 30%float /\ pnl_percent sm = 3%float /\
    active_trade s' = no_trade /\ levels_locked s' = false /\
    support_level s' = None /\ resistance_level s' = None.
Proof.
  destruct (exit_trade s_long 103%float "profit" None clock0)
    as [s' [[sm|]|e]] eqn:E;
    try (vm_compute in E; discriminate E).
  exists s', sm. split; [reflexivity|].
  destruct (exit_trade_spec _ _ _ _ _ _ _ E)
    as (entry & q & _ & He & Hq & HL & _ & HT & HK & HS & HR).
  vm_compute in He. injection He as <-.
  vm_compute in Hq. injection Hq as <-.
  destruct (HL eq_refl) as [P1 P2].
  split; [rewrite P1; reflexivity|]. split; [rewrite P2; reflexivity|].
  repeat split; assumption.
Defined.

(* ================================================================== *)
(** * The level lock *)
(* ================================================================== *)

(** C4. Once [enter_trade] succeeds the levels are locked, and they stay
    locked, with support and resistance as they were, through every run
    that holds no reset and no successful exit, however many
    [update_levels] calls it makes; and every [update_levels] call on a
    locked instance returns [False] and changes nothing. *)
Theorem levels_stay_locked (s : Strategy) (dir : string) (entry : float)
    (qty : Z) (oid : option string) (now : string) (s1 : Strategy)
    (calls : list (string * op)) :
  enter_trade s dir entry qty oid now = (s1, true) ->
  keeps_trade_run s1 calls ->
  levels_locked s1 = true /\
  levels_locked (run s1 calls) = true /\
  support_level (run s1 calls) = support_level s1 /\
  resistance_level (run s1 calls) = resistance_level s1 /\
  update_levels (run s1 calls) = (run s1 calls, false) /\
  (forall s2, levels_locked s2 = true -> update_levels s2 = (s2, false)).
Proof.
  intros E K.
  assert (L : levels_locked s1 = true).
  { unfold enter_trade in E. destruct (is_active _); [discriminate E|].
    destruct (String.eqb dir "long"); injection E as <-; reflexivity. }
  assert (U : forall s2, levels_locked s2 = true ->
                         update_levels s2 = (s2, false))
    by (intros s2 L2; unfold update_levels; rewrite L2; reflexivity).
  destruct (locked_run calls s1 L K) as (L2 & S2 & R2).
  repeat split; auto.
Qed.

Lemma levels_stay_locked_witness :
  enter_trade s_levels "long" 2520%float 1 None clock0
    = (run s_levels [(clock0, EnterTrade "long" 2520%float 1 None)], true) /\
  let s1 := run s_levels [(clock0, EnterTrade "long" 2520%float 1 None)] in
  let calls :=
    [ (clock0, AddPriceData 2600 2400 2500 None);
      (clock0, UpdateLevels);
      (clock0, AddPriceData 2500 2300 2400 None);
      (clock0, AddPriceData 2700 2450 2600 None);
      (clock0, UpdateLevels);
      (clock0, CheckExitConditions 2530) ]%float in
  keeps_trade_run s1 calls /\
  levels_locked (run s1 calls) = true /\
  support_level (run s1 calls) = Some 2480%float /\
  resistance_level (run s1 calls) = Some 2515%float.
Proof.
  split; [vm_compute; reflexivity|].
  intros s1 calls.
  assert (K : keeps_trade_run s1 calls) by (simpl; tauto).
  split; [exact K|].
  destruct (levels_stay_locked s_levels "long" 2520%float 1 None clock0
              s1 calls) as (_ & L & S & R & _).
  - vm_compute. reflexivity.
  - exact K.
  - rewrite S, R. split; [exact L|]. split; vm_compute; reflexivity.
Defined.

(* ================================================================== *)
(** * Level updates *)
(* ================================================================== *)

(** C5. In every reachable state, if both levels are set then
    [support < resistance].  [update_levels] overwrites the levels and
    returns [True] only when the levels are not locked and the detector
    yields both a support and a resistance with [support < resistance];
    when locked, when a level is missing, or when
    [support >= resistance], it returns [False]; and whenever it returns
    [False] the state is unchanged. *)
Theorem update_levels_spec (s : Strategy) :
  (reachable s -> levels_ordered s) /\
  (levels_locked s = true -> update_levels s = (s, false)) /\
  (fst (detect_support_resistance s) = None \/
   snd (detect_support_resistance s) = None ->
   update_levels s = (s, false)) /\
  (forall support resistance,
     detect_support_resistance s = (Some support, Some resistance) ->
     fge support resistance = true ->
     update_levels s = (s, false)) /\
  (forall support resistance,
     levels_locked s = false ->
     detect_support_resistance s = (Some support, Some resistance) ->
     flt support resistance = true ->
     update_levels s =
     (set_levels s (Some support) (Some resistance), true)) /\
  (forall s',
     update_levels s = (s', true) ->
     levels_locked s = false /\
     exists support resistance,
       detect_support_resistance s = (Some support, Some resistance) /\
       flt support resistance = true /\
       s' = set_levels s (Some support) (Some resistance)) /\
  (forall s', update_levels s = (s', false) -> s' = s).
Proof.
  split; [intros R; apply (reachable_inv s R)|].
  unfold update_levels. split; [intros ->; reflexivity|].
  split; [|split; [|split; [|split]]].
  - intros H. destruct (levels_locked s); [reflexivity|].
    destruct (detect_support_resistance s) as [[a|] [b|]];
      try reflexivity.
    simpl in H. destruct H as [H|H]; discriminate H.
  - intros a b -> E. rewrite E.
    destruct (levels_locked s); reflexivity.
  - intros a b -> -> E. rewrite (flt_not_fge _ _ E). reflexivity.
  - intros s' H. destruct (levels_locked s); [discriminate H|].
    split; [reflexivity|].
    destruct (detect_support_resistance s) as [[a|] [b|]] eqn:D;
      try discriminate H.
    destruct (fge a b) eqn:E; [discriminate H|].
    injection H as <-. exists a, b.
    destruct (detect_number _ _ _ D) as [Na Nb].
    repeat split. apply not_fge_flt; assumption.
  - intros s' H. destruct (levels_locked s); [injection H as <-; reflexivity|].
    destruct (detect_support_resistance s) as [[a|] [b|]];
      try (injection H as <-; reflexivity).
    destruct (fge a b); [injection H as <-; reflexivity | discriminate H].
Qed.

(* ================================================================== *)
(** * The level detector *)
(* ================================================================== *)

(** C7. For a positive window size [lookback + 2]: with fewer buffered
    points the detector reports no level at all; otherwise it works on the
    [lookback + 2] most recent points, where an interior index is a swing
    high iff its high exceeds both neighbours' highs and a swing low iff
    its low is below both neighbours' lows, and it returns as support the
    minimum of the swing lows and as resistance the maximum of the swing
    highs, each absent when there is no such swing. *)
Theorem detect_support_resistance_spec (s : Strategy) :
  0 < lookback_period s + 2 ->
  (Z.of_nat (List.length (price_data s)) < lookback_period s + 2 ->
   detect_support_resistance s = (None, None)) /\
  (lookback_period s + 2 <= Z.of_nat (List.length (price_data s)) ->
   exists window swing_highs swing_lows,
     window = most_recent (Z.to_nat (lookback_period s + 2)) (price_data s) /\
     Z.of_nat (List.length window) = lookback_period s + 2 /\
     (forall h, In h swing_highs <-> exists i, swing_high_at window i h) /\
     (forall l, In l swing_lows <-> exists i, swing_low_at window i l) /\
     minimum_or_absent (fst (detect_support_resistance s)) swing_lows /\
     maximum_or_absent (snd (detect_support_resistance s)) swing_highs).
Proof.
  intros K. unfold detect_support_resistance. split.
  - intros H. destruct (Z.ltb_spec (Z.of_nat (List.length (price_data s)))
                                   (lookback_period s + 2)); [reflexivity|lia].
  - intros H. destruct (Z.ltb_spec (Z.of_nat (List.length (price_data s)))
                                   (lookback_period s + 2)); [lia|].
    replace (- lookback_period s - 2) with (- (lookback_period s + 2)) by lia.
    rewrite slice_from_neg by exact K.
    set (window := most_recent _ _).
    exists window, (fst (find_swings window)), (snd (find_swings window)).
    split; [reflexivity|]. split.
    { unfold window. rewrite most_recent_length.
      rewrite Nat.min_l by lia. lia. }
    split; [intros h; apply swing_highs_spec|].
    split; [intros l; apply swing_lows_spec|].
    cbn [fst snd]. split.
    + apply py_min_spec. apply swing_lows_number.
    + apply py_max_spec. apply swing_highs_number.
Qed.

Lemma detect_support_resistance_spec_witness :
  0 < lookback_period s_sampled + 2 /\
  Z.of_nat (List.length (price_data s_sampled)) = 12 /\
  exists support resistance,
    detect_support_resistance s_sampled = (Some support, Some resistance) /\
    (exists i, swing_low_at (price_data s_sampled) i support) /\
    (exists i, swing_high_at (price_data s_sampled) i resistance).
Proof.
  split; [reflexivity|]. split; [reflexivity|].
  destruct (detect_support_resistance_spec s_sampled eq_refl) as [_ H].
  destruct H as (w & hs & ls & Hw & _ & Hh & Hl & Hmin & Hmax).
  { vm_compute. discriminate. }
  assert (W : w = price_data s_sampled) by (rewrite Hw; reflexivity).
  rewrite W in Hh, Hl.
  destruct (detect_support_resistance s_sampled) as [[a|] [b|]] eqn:D;
    try (vm_compute in D; discriminate D).
  exists a, b. split; [reflexivity|].
  cbn [fst snd minimum_or_absent maximum_or_absent] in Hmin, Hmax.
  split; [apply Hl, Hmin | apply Hh, Hmax].
Defined.

(* ================================================================== *)
(** * The price buffer *)
(* ================================================================== *)

(** C8. From every reachable state and for every sequence of ingests,
    the buffer never holds more than 50 points and is the 50 most recent
    of the points it held followed by the ingested ones, in arrival order;
    once 50 or more have been ingested it holds exactly the 50 most
    recently ingested points. *)
Theorem price_buffer_spec (s : Strategy) (ticks : list Tick) :
  reachable s ->
  (List.length (price_data s) <= 50)%nat /\
  (List.length (price_data (ingest s ticks)) <= 50)%nat /\
  price_data (ingest s ticks) =
    most_recent 50 (price_data s ++ map tick_point ticks) /\
  ((50 <= List.length ticks)%nat ->
   price_data (ingest s ticks) = most_recent 50 (map tick_point ticks) /\
   List.length (price_data (ingest s ticks)) = 50%nat).
Proof.
  intros R. destruct (reachable_inv s R) as (_ & _ & B).
  pose proof (ingest_buffer ticks s B) as E.
  change (Z.to_nat max_data_points) with 50%nat in E.
  split; [unfold buffer_bounded, max_data_points in B; lia|].
  split; [rewrite E, most_recent_length; lia|].
  split; [exact E|].
  intros H. rewrite E.
  rewrite most_recent_app_ge by (rewrite length_map; exact H).
  split; [reflexivity|].
  rewrite most_recent_length, length_map. lia.
Qed.

Lemma price_buffer_spec_witness :
  reachable s_fresh /\
  List.length (price_data (ingest s_fresh ticks60)) = 50%nat /\
  map high (price_data (ingest s_fresh ticks60)) =
  map float_of_nat (seq 10 50).
Proof.
  split; [exact s_fresh_reachable|].
  destruct (price_buffer_spec s_fresh ticks60 s_fresh_reachable)
    as (_ & _ & _ & H).
  destruct H as [E L]; [apply Nat.leb_le; reflexivity|].
  split; [exact L|]. rewrite E. vm_compute. reflexivity.
Defined.

(* ================================================================== *)
(** * Further properties of the strategy *)
(* ================================================================== *)

Lemma s_levels_reachable : reachable s_levels.
Proof. apply run_reachable, s_sampled_reachable. Qed.

Lemma s_zero_reachable : reachable s_zero.
Proof. apply run_reachable, s_fresh_reachable. Qed.

(** X1. In every reachable state the levels are locked exactly when a
    trade is active, and an inactive trade dictionary is the blank one
    written by the constructor. *)
Theorem lock_iff_active (s : Strategy) :
  reachable s ->
  levels_locked s = is_active (active_trade s) /\
  (is_active (active_trade s) = false -> active_trade s = no_trade).
Proof.
  intros R. destruct (reachable_inv2 s R) as (L & B & _).
  split; [exact L | exact B].
Qed.

Lemma lock_iff_active_witness :
  reachable s_long /\
  levels_locked s_long = true /\ is_active (active_trade s_long) = true.
Proof.
  split; [exact s_long_reachable|].
  destruct (lock_iff_active s_long s_long_reachable) as [L _].
  split; [rewrite L|]; reflexivity.
Defined.

(** X2. No call changes the constructor parameters, so [reset_strategy]
    after any run gives back the instance as constructed. *)
Theorem reset_restores_init (sym : string) (lookback : Z) (pt sl : float)
    (calls : list (string * op)) :
  reset_strategy (run (init sym lookback pt sl) calls)
  = init sym lookback pt sl.
Proof.
  destruct (run_same_params calls (init sym lookback pt sl))
    as (A & B & C & D).
  unfold reset_strategy, set_price_data, set_active_trade,
    set_levels_locked, set_levels. cbn [symbol lookback_period profit_target
    stop_loss support_level resistance_level levels_locked active_trade
    price_data].
  rewrite A, B, C, D. reflexivity.
Qed.

(** X3. On a reachable instance a price is never both above resistance
    and below support, so the order of the two breakout comparisons does
    not matter. *)
Theorem breakout_order_immaterial (s : Strategy) (price support resistance : float) :
  reachable s ->
  is_active (active_trade s) = false ->
  support_level s = Some support ->
  resistance_level s = Some resistance ->
  ~ (fgt price resistance = true /\ flt price support = true) /\
  check_breakout_signal s price =
  Ok (breakout_rule_support_first price support resistance).
Proof.
  intros R A Hs Hr. destruct (reachable_inv s R) as (_ & L & _).
  specialize (L _ _ Hs Hr).
  assert (X : ~ (fgt price resistance = true /\ flt price support = true)).
  { intros [H1 H2]. unfold fgt in H1.
    change (PrimFloat.ltb resistance price) with (flt resistance price) in H1.
    pose proof (flt_trans _ _ _ H2 L) as H3.
    apply flt_asym in H3. congruence. }
  split; [exact X|].
  unfold check_breakout_signal, breakout_rule_support_first.
  rewrite A, Hs, Hr.
  destruct (fgt price resistance) eqn:E1, (flt price support) eqn:E2;
    try reflexivity.
  exfalso. apply X. split; reflexivity.
Qed.

Lemma breakout_order_immaterial_witness :
  reachable s_levels /\
  check_breakout_signal s_levels 2470%float = Ok (Some "short"%string).
Proof.
  split; [exact s_levels_reachable|].
  destruct (breakout_order_immaterial s_levels 2470%float 2480%float
              2515%float s_levels_reachable eq_refl eq_refl eq_refl)
    as [_ H].
  rewrite H. reflexivity.
Defined.

(** X4. Levels are never invented: when [update_levels] succeeds, the
    new support is the low and the new resistance the high of candles in
    the buffer, and support < resistance. *)
Theorem levels_come_from_candles (s s' : Strategy) :
  update_levels s = (s', true) ->
  exists p q,
    In p (price_data s) /\ In q (price_data s) /\
    support_level s' = Some (low p) /\
    resistance_level s' = Some (high q) /\
    flt (low p) (high q) = true.
Proof.
  unfold update_levels. destruct (levels_locked s); [intros H; discriminate H|].
  destruct (detect_support_resistance s) as [[a|] [b|]] eqn:D;
    try (intros H; discriminate H).
  destruct (fge a b) eqn:E; [intros H; discriminate H|].
  intros H. injection H as <-.
  destruct (detect_number _ _ _ D) as [Na Nb].
  destruct (detect_some _ _ _ D) as (_ & _ & (p & Hp & ->) & (q & Hq & ->)).
  exists p, q. repeat split; try assumption.
  apply not_fge_flt; assumption.
Qed.

Lemma levels_come_from_candles_witness :
  exists p q,
    In p (price_data s_sampled) /\ In q (price_data s_sampled) /\
    support_level s_levels = Some (low p) /\
    resistance_level s_levels = Some (high q) /\
    flt (low p) (high q) = true.
Proof.
  apply (levels_come_from_candles s_sampled s_levels).
  vm_compute. reflexivity.
Defined.

(** X5. Stored levels are never NaN. *)
Theorem levels_never_nan (s : Strategy) :
  reachable s ->
  (forall a, support_level s = Some a -> is_nan a = false) /\
  (forall b, resistance_level s = Some b -> is_nan b = false).
Proof.
  intros R. destruct (reachable_inv2 s R) as (_ & _ & N). exact N.
Qed.

Lemma levels_never_nan_witness :
  reachable s_levels /\
  (forall a, support_level s_levels = Some a -> is_nan a = false) /\
  (forall b, resistance_level s_levels = Some b -> is_nan b = false).
Proof.
  split; [exact s_levels_reachable|].
  exact (levels_never_nan s_levels s_levels_reachable).
Defined.

(** X6. [update_levels] is idempotent: a second call without new data
    returns the same answer and leaves the state of the first call. *)
Theorem update_levels_idempotent (s : Strategy) :
  update_levels (fst (update_levels s)) = update_levels s.
Proof.
  unfold update_levels at 2 3.
  destruct (levels_locked s) eqn:L.
  - simpl. unfold update_levels. rewrite L. reflexivity.
  - destruct (detect_support_resistance s) as [[a|] [b|]] eqn:D;
      try (simpl; unfold update_levels; rewrite L, D; reflexivity).
    destruct (fge a b) eqn:E.
    + simpl. unfold update_levels. rewrite L, D, E. reflexivity.
    + simpl. unfold update_levels.
      rewrite detect_set_levels, D, E. cbn [levels_locked set_levels].
      rewrite L. reflexivity.
Qed.

(** X7. A trade that is open cannot be replaced or altered: through
    every run without a reset and without a successful exit the trade
    dictionary stays as it is. *)
Theorem open_trade_is_kept (s : Strategy) (calls : list (string * op)) :
  is_active (active_trade s) = true ->
  keeps_trade_run s calls ->
  active_trade (run s calls) = active_trade s.
Proof.
  revert s. induction calls as [|[now o] rest IH]; intros s A K; simpl.
  - reflexivity.
  - destruct K as [K1 K2].
    assert (E : active_trade (fst (call s now o)) = active_trade s).
    { destruct o; simpl in *.
      - unfold add_price_data. destruct (_ <? _); reflexivity.
      - unfold update_levels. destruct (levels_locked s); [reflexivity|].
        destruct (detect_support_resistance s) as [[a|] [b|]];
          try reflexivity.
        destruct (fge a b); reflexivity.
      - reflexivity.
      - unfold enter_trade. rewrite A. reflexivity.
      - reflexivity.
      - pose proof (exit_trade_failure s exit_price reason exit_oid now K1) as F.
        destruct (exit_trade s exit_price reason exit_oid now) as [s1 r].
        simpl in *. subst s1. reflexivity.
      - destruct K1. }
    rewrite IH; [exact E | rewrite E; exact A | exact K2].
Qed.

Lemma open_trade_is_kept_witness :
  is_active (active_trade s_zero) = true /\
  let calls :=
    [ (clock0, EnterTrade "short" 50 7 None);
      (clock0, AddPriceData 2600 2400 2500 None);
      (clock0, UpdateLevels);
      (clock0, ExitTrade 100 "manual" None) ]%float in
  keeps_trade_run s_zero calls /\
  active_trade (run s_zero calls) = active_trade s_zero.
Proof.
  split; [reflexivity|]. intros calls.
  assert (K : keeps_trade_run s_zero calls).
  { simpl. repeat split. intros sm H. vm_compute in H. discriminate H. }
  split; [exact K|].
  apply (open_trade_is_kept s_zero calls); [reflexivity | exact K].
Defined.

(** X8. Entering and then exiting a trade is a round trip on the
    instance: the state after the exit is the state before the entry with
    both levels cleared, and the summary echoes what was entered. *)
Theorem enter_exit_round_trip (s : Strategy) (dir : string) (entry : float)
    (qty : Z) (oid : option string) (now1 : string) (price : float)
    (reason : string) (exit_oid : option string) (now2 : string)
    (s2 : Strategy) (sm : TradeSummary) :
  reachable s ->
  is_active (active_trade s) = false ->
  exit_trade (fst (enter_trade s dir entry qty oid now1))
             price reason exit_oid now2 = (s2, Ok (Some sm)) ->
  s2 = set_levels s None None /\
  sum_symbol sm = symbol s /\
  sum_direction sm = Some dir /\
  sum_entry_price sm = entry /\
  sum_exit_price sm = price /\
  sum_quantity sm = qty /\
  sum_entry_time sm = Some now1 /\
  sum_exit_time sm = now2 /\
  sum_exit_reason sm = reason /\
  entry_order_id sm = oid /\
  exit_order_id sm = exit_oid.
Proof.
  intros R A H. destruct (reachable_inv2 s R) as (L & B & _).
  unfold lock_follows_trade in L. rewrite A in L. specialize (B A).
  destruct (exit_trade_success _ _ _ _ _ _ _ H)
    as (e & q & _ & He & _ & -> & ->).
  unfold enter_trade in *. rewrite A in *.
  destruct (String.eqb dir "long"); cbn in He; injection He as <-;
    (split; [|repeat split]);
    destruct s; cbn in *; subst; reflexivity.
Qed.

Lemma enter_exit_round_trip_witness :
  reachable s_levels /\
  is_active (active_trade s_levels) = false /\
  exists s2 sm,
    exit_trade (fst (enter_trade s_levels "long" 2520%float 1 None clock0))
               2600%float "profit" None clock0 = (s2, Ok (Some sm)) /\
    s2 = set_levels s_levels None None /\
    sum_entry_price sm = 2520%float.
Proof.
  split; [exact s_levels_reachable|]. split; [reflexivity|].
  destruct (exit_trade (fst (enter_trade s_levels "long" 2520%float 1 None
                                         clock0))
                       2600%float "profit" None clock0)
    as [s2 [[sm|]|e]] eqn:E;
    try (vm_compute in E; discriminate E).
  exists s2, sm. split; [reflexivity|].
  destruct (enter_exit_round_trip s_levels "long" 2520%float 1 None clock0
              2600%float "profit" None clock0 s2 sm
              s_levels_reachable eq_refl E)
    as (H1 & _ & _ & H2 & _).
  split; assumption.
Defined.

(** X9. A trade entered at price 0 (or -0) cannot be closed:
    [exit_trade] raises at every exit price, [ZeroDivisionError] when the
    quantity converts to a float and [OverflowError] when it does not,
    and the trade stays as it is. *)
Theorem zero_entry_never_exits (s : Strategy) (entry : float)
    (price : float) (reason : string) (exit_oid : option string)
    (now : string) :
  is_active (active_trade s) = true ->
  entry_price (active_trade s) = Some entry ->
  PrimFloat.eqb entry 0 = true ->
  exists e,
    exit_trade s price reason exit_oid now = (s, Raise e) /\
    (e = ZeroDivisionError \/ e = OverflowError) /\
    (forall q, float_of_int (quantity (active_trade s)) = Ok q ->
               e = ZeroDivisionError).
Proof.
  intros A He Z. unfold exit_trade, compute_pnl, fdiv.
  rewrite A, He, Z. cbn [negb].
  destruct (float_of_int (quantity (active_trade s))) as [q|e] eqn:Q.
  - exists ZeroDivisionError. repeat split; auto.
  - exists e. split; [reflexivity|]. split.
    + unfold float_of_int in Q.
      destruct (binary_normalize _ _ _ _ _); try discriminate Q.
      injection Q as <-. right. reflexivity.
    + intros q H. discriminate H.
Qed.

Lemma zero_entry_never_exits_witness :
  is_active (active_trade s_zero) = true /\
  entry_price (active_trade s_zero) = Some 0%float /\
  exit_trade s_zero 5%float "profit" None clock0
  = (s_zero, Raise ZeroDivisionError).
Proof.
  split; [reflexivity|]. split; [reflexivity|].
  destruct (zero_entry_never_exits s_zero 0%float 5%float "profit" None
              clock0 eq_refl eq_refl eq_refl) as (e & H & _ & Hq).
  rewrite H. rewrite (Hq 10%float eq_refl). reflexivity.
Defined.

(** X10. [exit_trade] is all or nothing: it either returns a summary or
    leaves the instance exactly as it was, whether it found no trade or
    raised. *)
Theorem exit_trade_all_or_nothing (s : Strategy) (price : float)
    (reason : string) (exit_oid : option string) (now : string) :
  (exists sm, snd (exit_trade s price reason exit_oid now) = Ok (Some sm)) \/
  fst (exit_trade s price reason exit_oid now) = s.
Proof.
  destruct (snd (exit_trade s price reason exit_oid now))
    as [[sm|]|e] eqn:E.
  - left. exists sm. reflexivity.
  - right. apply exit_trade_failure. intros sm H. congruence.
  - right. apply exit_trade_failure. intros sm H. congruence.
Qed.

(** X11. A NaN price gives no signal: on every reachable instance both
    [check_breakout_signal] and [check_exit_conditions] return [None]. *)
Theorem nan_price_no_signal (s : Strategy) (price : float) :
  reachable s ->
  is_nan price = true ->
  check_breakout_signal s price = Ok None /\
  check_exit_conditions s price = Ok None.
Proof.
  intros R N. destruct (reachable_inv s R) as (T & _ & _). split.
  - unfold check_breakout_signal, fgt.
    destruct (is_active _); [reflexivity|].
    destruct (support_level s) as [a|], (resistance_level s) as [b|];
      try reflexivity.
    change (PrimFloat.ltb b price) with (flt b price).
    rewrite (nan_flt_r price b N), (nan_flt_l price a N). reflexivity.
  - unfold check_exit_conditions.
    destruct (is_active (active_trade s)) eqn:A; [|reflexivity].
    destruct (T A) as (d & e & tp & sp & _ & _ & -> & ->). cbn [negb].
    unfold fge.
    change (PrimFloat.leb tp price) with (fle tp price).
    change (PrimFloat.leb sp price) with (fle sp price).
    rewrite (nan_fle_r price tp N), (nan_fle_r price sp N),
            (nan_fle_l price tp N), (nan_fle_l price sp N).
    destruct (is_long _); reflexivity.
Qed.

Lemma nan_price_no_signal_witness :
  reachable s_long /\ is_nan nan = true /\
  check_exit_conditions s_long nan = Ok None.
Proof.
  split; [exact s_long_reachable|]. split; [reflexivity|].
  exact (proj2 (nan_price_no_signal s_long nan s_long_reachable eq_refl)).
Defined.

(** X12. After a successful exit the buffer is kept and the levels are
    open again: the detector sees what it saw before, and the next
    [update_levels] returns [True] and stores the pair the detector
    proposes whenever that pair is ordered, leaving the buffer and the
    blank trade alone, and returns [False] when a level is missing. *)
Theorem exit_reopens_levels (s : Strategy) (price : float) (reason : string)
    (exit_oid : option string) (now : string) (s' : Strategy)
    (sm : TradeSummary) :
  exit_trade s price reason exit_oid now = (s', Ok (Some sm)) ->
  price_data s' = price_data s /\
  detect_support_resistance s' = detect_support_resistance s /\
  (forall a b,
     detect_support_resistance s = (Some a, Some b) ->
     flt a b = true ->
     snd (update_levels s') = true /\
     support_level (fst (update_levels s')) = Some a /\
     resistance_level (fst (update_levels s')) = Some b /\
     levels_locked (fst (update_levels s')) = false /\
     active_trade (fst (update_levels s')) = no_trade /\
     price_data (fst (update_levels s')) = price_data s) /\
  (fst (detect_support_resistance s) = None \/
   snd (detect_support_resistance s) = None ->
   update_levels s' = (s', false)).
Proof.
  intros H.
  destruct (exit_trade_success _ _ _ _ _ _ _ H) as (e & q & _ & _ & _ & _ & ->).
  split; [reflexivity|]. split; [reflexivity|]. split.
  - intros a b D L. unfold update_levels.
    cbn [levels_locked set_levels set_levels_locked set_active_trade].
    rewrite !detect_set_levels.
    change (detect_support_resistance
              (set_levels_locked (set_active_trade s no_trade) false))
      with (detect_support_resistance s).
    rewrite D, (flt_not_fge _ _ L). repeat split; reflexivity.
  - intros D. unfold update_levels.
    cbn [levels_locked set_levels set_levels_locked set_active_trade].
    rewrite !detect_set_levels.
    change (detect_support_resistance
              (set_levels_locked (set_active_trade s no_trade) false))
      with (detect_support_resistance s).
    destruct (detect_support_resistance s) as [[a|] [b|]]; try reflexivity.
    simpl in D. destruct D as [D|D]; discriminate D.
Qed.

Lemma exit_reopens_levels_witness :
  List.length (price_data s_open) = 12%nat /\
  detect_support_resistance s_open = (Some 2480%float, Some 2515%float) /\
  update_levels s_open = (s_open, false) /\
  exists s' sm,
    exit_trade s_open 2600%float "profit" None clock0 = (s', Ok (Some sm)) /\
    support_level s' = None /\
    price_data s' = price_data s_open /\
    detect_support_resistance s' = (Some 2480%float, Some 2515%float) /\
    snd (update_levels s') = true /\
    support_level (fst (update_levels s')) = Some 2480%float /\
    resistance_level (fst (update_levels s')) = Some 2515%float.
Proof.
  split; [reflexivity|].
  assert (D : detect_support_resistance s_open
              = (Some 2480%float, Some 2515%float))
    by (vm_compute; reflexivity).
  split; [exact D|]. split; [vm_compute; reflexivity|].
  destruct (exit_trade s_open 2600%float "profit" None clock0)
    as [s' [[sm|]|e]] eqn:E;
    try (vm_compute in E; discriminate E).
  exists s', sm. split; [reflexivity|].
  destruct (exit_reopens_levels _ _ _ _ _ _ _ E) as (H1 & H2 & H3 & _).
  destruct (H3 _ _ D eq_refl) as (U & S & R & _).
  split; [vm_compute in E; injection E as <- _; reflexivity|].
  split; [exact H1|]. split; [rewrite H2; exact D|].
  split; [exact U|]. split; [exact S | exact R].
Defined.

(** X13. [update_levels] succeeds only on enough data: the buffer then
    holds at least [lookback + 2] points and at least 3, whatever the
    lookback. *)
Theorem update_levels_needs_data (s s' : Strategy) :
  update_levels s = (s', true) ->
  lookback_period s + 2 <= Z.of_nat (List.length (price_data s)) /\
  (3 <= List.length (price_data s))%nat.
Proof.
  unfold update_levels. destruct (levels_locked s); [intros H; discriminate H|].
  destruct (detect_support_resistance s) as [[a|] [b|]] eqn:D;
    try (intros H; discriminate H).
  intros _. destruct (detect_some _ _ _ D) as (H1 & H2 & _). split; assumption.
Qed.

Lemma update_levels_needs_data_witness :
  update_levels s_sampled = (s_levels, true) /\
  lookback_period s_sampled + 2 <= Z.of_nat (List.length (price_data s_sampled)).
Proof.
  assert (H : update_levels s_sampled = (s_levels, true))
    by (vm_compute; reflexivity).
  split; [exact H|].
  exact (proj1 (update_levels_needs_data s_sampled s_levels H)).
Defined.

(** X14. The status of a reachable instance is consistent: it reports at
    most 50 data points, locked levels exactly when its trade copy is
    active, and support below resistance when it reports both. *)
Theorem get_status_consistent (s : Strategy) :
  reachable s ->
  0 <= data_points (get_status s) <= 50 /\
  st_levels_locked (get_status s) = is_active (st_active_trade (get_status s)) /\
  (forall a b,
     st_support_level (get_status s) = Some a ->
     st_resistance_level (get_status s) = Some b ->
     flt a b = true).
Proof.
  intros R. destruct (reachable_inv s R) as (_ & L & B).
  destruct (reachable_inv2 s R) as (K & _ & _).
  unfold get_status. cbn.
  unfold buffer_bounded, max_data_points in B.
  split; [lia|]. split; [exact K | exact L].
Qed.

Lemma get_status_consistent_witness :
  reachable (ingest s_fresh ticks60) /\
  0 <= data_points (get_status (ingest s_fresh ticks60)) <= 50.
Proof.
  assert (R : reachable (ingest s_fresh ticks60))
    by (apply run_reachable, s_fresh_reachable).
  split; [exact R|].
  exact (proj1 (get_status_consistent _ R)).
Defined.

(* ================================================================== *)
(** * Properties of the registry *)
(* ================================================================== *)

(** X15. For ASCII symbols [get_strategy] is case-insensitive and
    creates at most once: a second call under any spelling with the same
    upper-case form returns the instance of the first call and leaves the
    registry alone, and its keyword arguments are ignored. *)
Theorem get_strategy_idempotent (r : Registry) (sym sym' : string)
    (kw kw' : Kwargs) :
  is_ascii sym = true ->
  is_ascii sym' = true ->
  upper sym' = upper sym ->
  get_strategy (fst (get_strategy r sym kw)) sym' kw' =
  (fst (get_strategy r sym kw), snd (get_strategy r sym kw)).
Proof.
  intros _ _ E. destruct (get_strategy_lookup r sym kw) as (L & _).
  unfold get_strategy at 1. rewrite E, L. reflexivity.
Qed.

Lemma get_strategy_idempotent_witness :
  is_ascii "reliance" = true /\ is_ascii "Reliance" = true /\
  upper "Reliance" = upper "reliance" /\
  get_strategy reg_one "Reliance" (mkKwargs (Some 5) None None) =
  (reg_one, init_default "RELIANCE") /\
  List.length reg_one = 1%nat.
Proof.
  split; [reflexivity|]. split; [reflexivity|]. split; [reflexivity|].
  split; [|reflexivity]. unfold reg_one.
  rewrite (get_strategy_idempotent [] "reliance" "Reliance" no_kwargs
             (mkKwargs (Some 5) None None) eq_refl eq_refl eq_refl).
  reflexivity.
Defined.

(** X16. For an ASCII symbol [remove_strategy] answers whether the
    upper-cased symbol was registered; afterwards it is not registered,
    every other symbol has the instance it had, and a [False] answer
    leaves the registry as it was. *)
Theorem remove_strategy_spec (r : Registry) (sym : string) :
  is_ascii sym = true ->
  (snd (remove_strategy r sym) = true <->
   exists s, reg_lookup (upper sym) r = Some s) /\
  reg_lookup (upper sym) (fst (remove_strategy r sym)) = None /\
  (forall k, k <> upper sym ->
     reg_lookup k (fst (remove_strategy r sym)) = reg_lookup k r) /\
  (snd (remove_strategy r sym) = false -> fst (remove_strategy r sym) = r).
Proof.
  intros _. unfold remove_strategy.
  destruct (reg_lookup (upper sym) r) as [s|] eqn:E; simpl.
  - split; [split; [eauto | reflexivity]|].
    split; [apply reg_lookup_delete_same|].
    split; [intros k N; apply reg_lookup_delete_other, N|].
    intros H. discriminate H.
  - split; [split; [intros H; discriminate H | intros [s H]; discriminate H]|].
    split; [exact E|]. split; reflexivity.
Qed.

Lemma remove_strategy_spec_witness :
  is_ascii "tcs" = true /\
  snd (remove_strategy reg_two "tcs") = true /\
  reg_lookup "TCS" (fst (remove_strategy reg_two "tcs")) = None /\
  reg_lookup "RELIANCE" (fst (remove_strategy reg_two "tcs")) = Some s_long /\
  snd (remove_strategy (fst (remove_strategy reg_two "tcs")) "Tcs") = false.
Proof.
  split; [reflexivity|].
  destruct (remove_strategy_spec reg_two "tcs" eq_refl) as (T & L & O & _).
  split; [apply T; eexists; reflexivity|].
  split; [exact L|].
  split; [rewrite O by discriminate; reflexivity|].
  destruct (remove_strategy_spec (fst (remove_strategy reg_two "tcs")) "Tcs"
              eq_refl) as (T2 & _).
  destruct (snd (remove_strategy (fst (remove_strategy reg_two "tcs")) "Tcs"))
    eqn:B; [|reflexivity].
  destruct (proj1 T2 eq_refl) as [s H]. exfalso.
  change (upper "Tcs") with (upper "tcs") in H. rewrite L in H.
  discriminate H.
Defined.

(** X17. Removing an ASCII symbol discards its state: the next
    [get_strategy] constructs a new instance under the upper-cased
    symbol, with no levels, no trade and an empty buffer, whatever the
    removed one held. *)
Theorem remove_then_get_is_fresh (r : Registry) (sym : string) (kw : Kwargs) :
  is_ascii sym = true ->
  snd (get_strategy (fst (remove_strategy r sym)) sym kw)
    = construct (upper sym) kw /\
  symbol (snd (get_strategy (fst (remove_strategy r sym)) sym kw))
    = upper sym /\
  support_level (snd (get_strategy (fst (remove_strategy r sym)) sym kw))
    = None /\
  resistance_level (snd (get_strategy (fst (remove_strategy r sym)) sym kw))
    = None /\
  levels_locked (snd (get_strategy (fst (remove_strategy r sym)) sym kw))
    = false /\
  active_trade (snd (get_strategy (fst (remove_strategy r sym)) sym kw))
    = no_trade /\
  price_data (snd (get_strategy (fst (remove_strategy r sym)) sym kw)) = [].
Proof.
  intros _.
  assert (L : reg_lookup (upper sym) (fst (remove_strategy r sym)) = None).
  { unfold remove_strategy.
    destruct (reg_lookup (upper sym) r) eqn:E; simpl;
      [apply reg_lookup_delete_same | exact E]. }
  assert (G : snd (get_strategy (fst (remove_strategy r sym)) sym kw)
              = construct (upper sym) kw)
    by (unfold get_strategy; rewrite L; reflexivity).
  rewrite G. split; [reflexivity|].
  split; [apply upper_idem|]. repeat split; reflexivity.
Qed.

Lemma remove_then_get_is_fresh_witness :
  is_ascii "reliance" = true /\
  reg_lookup "RELIANCE" reg_two = Some s_long /\
  is_active (active_trade s_long) = true /\
  active_trade
    (snd (get_strategy (fst (remove_strategy reg_two "reliance"))
                       "reliance" no_kwargs)) = no_trade /\
  symbol
    (snd (get_strategy (fst (remove_strategy reg_two "reliance"))
                       "reliance" no_kwargs)) = "RELIANCE"%string.
Proof.
  split; [reflexivity|]. split; [reflexivity|]. split; [reflexivity|].
  destruct (remove_then_get_is_fresh reg_two "reliance" no_kwargs eq_refl)
    as (_ & S & _ & _ & _ & T & _).
  split; [exact T | exact S].
Defined.

(** X18. In every registry built with [get_strategy] and
    [remove_strategy] on ASCII symbols and with method calls on
    registered instances, each instance is registered under its own
    symbol, that key is ASCII and upper-case, the instance is a reachable
    one, and no symbol is registered twice. *)
Theorem registry_keys_are_symbols (r : Registry) :
  reg_reachable r ->
  NoDup (map fst r) /\
  (forall k s,
     reg_lookup k r = Some s ->
     symbol s = k /\ is_ascii k = true /\ upper k = k /\ reachable s).
Proof.
  intros R. destruct (reg_reachable_wf r R) as [N F]. split; [exact N|].
  intros k s L. apply reg_lookup_In in L.
  eapply Forall_forall in F; [|exact L]. exact F.
Qed.

Lemma registry_keys_are_symbols_witness :
  reg_reachable reg_built /\
  map fst reg_built = ["RELIANCE"; "TCS"]%string /\
  (exists s, reg_lookup "RELIANCE" reg_built = Some s /\
             is_active (active_trade s) = true /\
             symbol s = "RELIANCE"%string) /\
  (forall k s, reg_lookup k reg_built = Some s ->
               symbol s = k /\ upper k = k /\ reachable s).
Proof.
  assert (R : reg_reachable reg_built).
  { unfold reg_built, reg_two.
    apply rr_remove; [reflexivity|].
    apply rr_get; [reflexivity|].
    apply rr_get; [reflexivity|].
    apply (rr_call reg_one "RELIANCE" (init_default "RELIANCE") clock0
                   (EnterTrade "long" 100%float 10 (Some "ORD1"%string)));
      [|reflexivity].
    apply rr_get; [reflexivity | apply rr_empty]. }
  split; [exact R|]. split; [reflexivity|].
  destruct (registry_keys_are_symbols reg_built R) as [_ H].
  split.
  - exists s_long. split; [reflexivity|]. split; [reflexivity|].
    exact (proj1 (H "RELIANCE"%string s_long eq_refl)).
  - intros k s L. destruct (H k s L) as (A & _ & B & C).
    split; [exact A|]. split; assumption.
Defined.

(* ================================================================== *)
(** * Properties of order placement and of the webhook *)
(* ================================================================== *)

(** X19. [place_order] validates before it reaches the broker: an action
    that is neither buy nor sell (in any case), and then a quantity that
    is not positive, gives an error result that echoes the arguments and
    leaves the outside world untouched; a success result is only given
    for a valid action and a positive quantity, and carries the
    lower-cased action, the quantity and, for an ASCII symbol, the
    upper-cased symbol. *)
Theorem place_order_validates {World : Type} (K : Kite World) (w : World)
    (sym action : string) (qty : Z) :
  (lower action <> "buy"%string /\ lower action <> "sell"%string ->
   place_order K w sym action qty =
   (w, OrderError bad_action_message sym action qty)) /\
  (lower action = "buy"%string \/ lower action = "sell"%string ->
   qty <= 0 ->
   place_order K w sym action qty =
   (w, OrderError "Error placing order: Quantity must be greater than 0"
                  sym action qty)) /\
  (forall w' oid osym oact oqty omsg,
     place_order K w sym action qty
       = (w', OrderSuccess oid osym oact oqty omsg) ->
     (lower action = "buy"%string \/ lower action = "sell"%string) /\
     0 < qty /\ oact = lower action /\ oqty = qty /\
     (is_ascii sym = true -> osym = upper sym)).
Proof.
  unfold place_order. split; [|split].
  - intros [A B]. apply String.eqb_neq in A, B. rewrite A, B. reflexivity.
  - intros V Q.
    assert (E : (String.eqb (lower action) "buy"
                 || String.eqb (lower action) "sell")%bool = true)
      by (destruct V as [-> | ->]; reflexivity).
    rewrite E. cbn [negb].
    destruct (Z.leb_spec qty 0); [reflexivity | lia].
  - intros w' oid osym oact oqty omsg.
    destruct (String.eqb_spec (lower action) "buy") as [A|A];
      destruct (String.eqb_spec (lower action) "sell") as [B|B];
      cbn [orb negb]; try (intros E; discriminate E);
      (destruct (Z.leb_spec qty 0) as [Q|Q]; [intros E; discriminate E|];
       destruct (get_kite K w) as [w1 [e|]]; [intros E; discriminate E|];
       destruct (kite_place_order K w1 _) as [w2 [o|e]];
         [|intros E; discriminate E];
       intros E; injection E as _ _ <- <- <- _;
       repeat split; auto).
Qed.

Lemma place_order_validates_witness :
  exists oid osym oact oqty omsg,
    place_order demo_kite 0%nat "reliance" "BUY" 5
      = (1%nat, OrderSuccess oid osym oact oqty omsg) /\
    osym = "RELIANCE"%string /\ oact = "buy"%string /\ oqty = 5 /\
    place_order demo_kite 0%nat "reliance" "long" 5
      = (0%nat, OrderError bad_action_message "reliance" "long" 5) /\
    place_order demo_kite 0%nat "reliance" "sell" 0
      = (0%nat,
         OrderError "Error placing order: Quantity must be greater than 0"
                    "reliance" "sell" 0).
Proof.
  destruct (place_order demo_kite 0%nat "reliance" "BUY" 5)
    as [w' [oid osym oact oqty omsg|m a b c]] eqn:E;
    [|vm_compute in E; discriminate E].
  destruct (place_order_validates demo_kite 0%nat "reliance" "BUY" 5)
    as (_ & _ & S).
  destruct (S _ _ _ _ _ _ E) as (_ & _ & A & Q & Y).
  exists oid, osym, oact, oqty, omsg.
  split; [vm_compute in E; injection E as <- _ _ _ _ _; reflexivity|].
  split; [rewrite (Y eq_refl); reflexivity|].
  split; [rewrite A; reflexivity|]. split; [exact Q|].
  destruct (place_order_validates demo_kite 0%nat "reliance" "long" 5)
    as (B & _ & _).
  destruct (place_order_validates demo_kite 0%nat "reliance" "sell" 0)
    as (_ & N & _).
  split.
  - apply B. split; intros H; discriminate H.
  - apply N; [right; reflexivity | discriminate].
Defined.

(** X20. The price-data webhook never opens a trade: a breakout signal is
    ["long"] or ["short"], which [place_order] rejects as an action before
    it reaches the broker.  So, whatever the broker, the handler answers
    200 without [trade_entered = True]; when it reports a breakout it
    reports [trade_entered = False] with the rejected-action error; the
    outside world and the monitoring flag are as before, and the
    instance's trade dictionary is the one it had. *)
Theorem webhook_never_enters {World : Type} (K : Kite World) (w : World)
    (app : App) (sym : string) (h l c : float) (ts : option string)
    (qty : Z) (now_add now_enter : string) :
  exists app' resp s0 s',
    webhook_price_data K w app sym h l c ts qty now_add now_enter
      = (w, app', Ok resp) /\
    monitoring_active app' = monitoring_active app /\
    r_trade_entered resp <> Some true /\
    (forall sig, r_breakout_signal resp = Some sig ->
       (sig = "long"%string \/ sig = "short"%string) /\
       r_trade_entered resp = Some false /\
       r_order_error resp = Some bad_action_message) /\
    s0 = snd (get_strategy (strategy_instances app) sym no_kwargs) /\
    reg_lookup (upper sym) (strategy_instances app') = Some s' /\
    s' = fst (update_levels (add_price_data s0 h l c ts now_add)) /\
    active_trade s' = active_trade s0.
Proof.
  destruct (webhook_price_data_eq K w app sym h l c ts qty now_add now_enter)
    as (resp & E & T & _ & _ & _ & _ & _ & S).
  do 4 eexists. split; [exact E|]. split; [reflexivity|].
  split; [exact T|]. split.
  - intros sig H. destruct (S sig H) as (B & T' & O).
    split; [eapply breakout_signal_values, B | split; assumption].
  - split; [reflexivity|]. cbn [strategy_instances].
    rewrite reg_lookup_store, String.eqb_refl.
    split; [reflexivity|]. split; [reflexivity|].
    destruct (update_levels_trade
                (add_price_data
                   (snd (get_strategy (strategy_instances app) sym no_kwargs))
                   h l c ts now_add)) as [-> _].
    apply add_price_data_trade.
Qed.

(** X21. A server fed price events only never opens a position: starting
    without open trades, after any sequence of price-data webhooks no
    registered instance has an active trade, the broker was never
    reached, and the monitoring flag is as it was. *)
Theorem feed_never_trades {World : Type} (K : Kite World) (w : World)
    (app : App) (events : list PriceEvent) :
  no_open_trades (strategy_instances app) ->
  fst (feed K (w, app) events) = w /\
  monitoring_active (snd (feed K (w, app) events)) = monitoring_active app /\
  no_open_trades (strategy_instances (snd (feed K (w, app) events))).
Proof.
  intros N. exact (feed_keeps K events (w, app) N).
Qed.

Lemma feed_never_trades_witness :
  no_open_trades (strategy_instances fresh_app) /\
  fst (feed demo_kite (0%nat, fresh_app) sample_events) = 0%nat /\
  (exists s,
     reg_lookup "RELIANCE"
       (strategy_instances (snd (feed demo_kite (0%nat, fresh_app)
                                      sample_events))) = Some s /\
     resistance_level s = Some 2515%float /\
     check_breakout_signal s 2520%float = Ok (Some "long"%string) /\
     is_active (active_trade s) = false).
Proof.
  assert (N : no_open_trades (strategy_instances fresh_app))
    by (intros k s H; discriminate H).
  split; [exact N|].
  destruct (feed_never_trades demo_kite 0%nat fresh_app sample_events N)
    as (W & _ & T).
  split; [exact W|].
  destruct (reg_lookup "RELIANCE"
              (strategy_instances (snd (feed demo_kite (0%nat, fresh_app)
                                             sample_events))))
    as [s|] eqn:L; [|vm_compute in L; discriminate L].
  exists s. split; [reflexivity|].
  pose proof (T _ _ L) as A.
  vm_compute in L. injection L as <-.
  split; [reflexivity|]. split; [vm_compute; reflexivity | exact A].
Defined.

(* ================================================================== *)
(** * Properties of manual exit and of the monitor *)
(* ================================================================== *)


(** X23. The exit order goes out before the trade is closed: for a trade
    entered at price 0 whose exit order the broker accepts, [manual_exit]
    answers 500, the order has been placed (the outside world is the one
    the broker left) and the trade is still open. *)
Theorem manual_exit_order_without_exit {World : Type} (K : Kite World)
    (M : Market World) (w w1 w2 w3 : World) (app : App) (sym : string)
    (now : string) (s : Strategy) (entry p q : float) (oid : string) :
  reg_lookup (upper sym) (strategy_instances app) = Some s ->
  is_active (active_trade s) = true ->
  entry_price (active_trade s) = Some entry ->
  PrimFloat.eqb entry 0 = true ->
  float_of_int (quantity (active_trade s)) = Ok q ->
  0 < quantity (active_trade s) ->
  get_ltp M w sym = (w1, inl (LtpSuccess p)) ->
  get_kite K w1 = (w2, None) ->
  kite_place_order K w2
    (mkOrderParams (upper sym) EXCHANGE_NSE
       (if is_long (direction (active_trade s))
        then TRANSACTION_TYPE_SELL else TRANSACTION_TYPE_BUY)
       (quantity (active_trade s)) PRODUCT_MIS ORDER_TYPE_MARKET VALIDITY_DAY)
    = (w3, inl oid) ->
  manual_exit K M w app sym now =
  (w3, app, ExitServerError (PyExn ZeroDivisionError)).
Proof.
  intros L A He Z Q Pos G GK PO.
  unfold manual_exit. rewrite L, A, G. cbn [negb].
  assert (P : place_order K w1 sym (exit_action (active_trade s))
                          (quantity (active_trade s)) =
              (w3, OrderSuccess oid (upper sym)
                     (lower (exit_action (active_trade s)))
                     (quantity (active_trade s))
                     (capitalize (exit_action (active_trade s))
                      ++ " order for " ++ str_of_int (quantity (active_trade s))
                      ++ " shares of " ++ upper sym
                      ++ " placed successfully"))).
  { unfold place_order, exit_action in *.
    destruct (is_long (direction (active_trade s))).
    - change (lower "sell") with "sell"%string.
      change (String.eqb "sell" "buy") with false.
      change (String.eqb "sell" "sell") with true. cbn [orb negb].
      destruct (Z.leb_spec (quantity (active_trade s)) 0); [lia|].
      rewrite GK, PO. reflexivity.
    - change (lower "buy") with "buy"%string.
      change (String.eqb "buy" "buy") with true. cbn [orb negb].
      destruct (Z.leb_spec (quantity (active_trade s)) 0); [lia|].
      rewrite GK, PO. reflexivity. }
  rewrite P.
  rewrite (zero_entry_exit_raises s entry p "manual" (Some oid) now q A He Z Q).
  rewrite (reg_store_same _ _ _ L). destruct app; reflexivity.
Qed.

Lemma manual_exit_order_without_exit_witness :
  reg_lookup (upper "reliance") (strategy_instances app_zero) = Some s_zero /\
  entry_price (active_trade s_zero) = Some 0%float /\
  manual_exit demo_kite demo_market 0%nat app_zero "reliance" clock0 =
  (1%nat, app_zero, ExitServerError (PyExn ZeroDivisionError)).
Proof.
  split; [reflexivity|]. split; [reflexivity|].
  apply (manual_exit_order_without_exit demo_kite demo_market
           0%nat 0%nat 0%nat 1%nat app_zero "reliance" clock0 s_zero
           0%float 5%float 10%float "ORDER-1");
    reflexivity.
Defined.

(** X24. One monitor iteration closes a trade exactly on an exit signal
    with an accepted order.  Either it leaves the instance exactly as it
    was, or the price was fetched, [check_exit_conditions] gave
    ["profit"] or ["loss"] at that price, [place_order] accepted the exit
    order for the trade's quantity, and the instance is the result of
    [exit_trade] at that price with that reason and the order's id, which
    returned its summary; the outside world is the one the broker left.
    Conversely, whenever the price is fetched, a signal is given and the
    order is accepted, the iteration returns what [exit_trade] leaves. *)
Theorem monitor_closes_only_on_signal {World : Type} (K : Kite World)
    (M : Market World) (w : World) (s : Strategy) (sym : string)
    (now : string) :
  (snd (monitor_symbol K M w s sym now) = s \/
   exists w1 w2 p reason oid osym oact oqty omsg sm,
     get_ltp M w sym = (w1, inl (LtpSuccess p)) /\
     check_exit_conditions s p = Ok (Some reason) /\
     (reason = "profit"%string \/ reason = "loss"%string) /\
     place_order K w1 sym (exit_action (active_trade s))
                 (quantity (active_trade s))
       = (w2, OrderSuccess oid osym oact oqty omsg) /\
     exit_trade s p reason (Some oid) now
       = (snd (monitor_symbol K M w s sym now), Ok (Some sm)) /\
     fst (monitor_symbol K M w s sym now) = w2 /\
     sum_exit_price sm = p /\
     sum_exit_reason sm = reason /\
     exit_order_id sm = Some oid /\
     active_trade (snd (monitor_symbol K M w s sym now)) = no_trade /\
     levels_locked (snd (monitor_symbol K M w s sym now)) = false /\
     support_level (snd (monitor_symbol K M w s sym now)) = None /\
     resistance_level (snd (monitor_symbol K M w s sym now)) = None /\
     price_data (snd (monitor_symbol K M w s sym now)) = price_data s) /\
  (forall w1 w2 p reason oid osym oact oqty omsg,
     get_ltp M w sym = (w1, inl (LtpSuccess p)) ->
     check_exit_conditions s p = Ok (Some reason) ->
     place_order K w1 sym (exit_action (active_trade s))
                 (quantity (active_trade s))
       = (w2, OrderSuccess oid osym oact oqty omsg) ->
     monitor_symbol K M w s sym now =
     (w2, fst (exit_trade s p reason (Some oid) now))) /\
  (forall w1 w2 p emsg esym eact eqty,
     get_ltp M w sym = (w1, inl (LtpSuccess p)) ->
     place_order K w1 sym (exit_action (active_trade s))
                 (quantity (active_trade s))
       = (w2, OrderError emsg esym eact eqty) ->
     snd (monitor_symbol K M w s sym now) = s).
Proof.
  split; [|split].
  - destruct (monitor_symbol_cases K M w s sym now)
      as [H|(w1 & w2 & p & reason & oid & osym & oact & oqty & omsg & sm
             & G & C & P & E & W)];
      [left; exact H|].
    right. exists w1, w2, p, reason, oid, osym, oact, oqty, omsg, sm.
    destruct (exit_signal_values _ _ _ C) as [_ V].
    destruct (exit_trade_success _ _ _ _ _ _ _ E)
      as (entry & q & _ & He & _ & Hsm & Hs').
    rewrite Hs' in *. subst sm. repeat split; auto.
  - intros w1 w2 p reason oid osym oact oqty omsg G C P.
    unfold monitor_symbol. rewrite G, C.
    destruct (exit_signal_values _ _ _ C) as [_ [->| ->]]; cbn [truthy];
      rewrite P; reflexivity.
  - intros w1 w2 p emsg esym eact eqty G P.
    unfold monitor_symbol. rewrite G.
    destruct (check_exit_conditions s p) as [[reason|]|e]; try reflexivity.
    destruct (truthy (Some reason)); [|reflexivity].
    rewrite P. reflexivity.
Qed.

Lemma monitor_closes_only_on_signal_witness :
  check_exit_conditions s_open 2600%float = Ok (Some "profit"%string) /\
  is_active
    (active_trade
       (snd (monitor_symbol demo_kite market_2600 0%nat s_open "RELIANCE"
                            clock0))) = false /\
  price_data
    (snd (monitor_symbol demo_kite market_2600 0%nat s_open "RELIANCE"
                         clock0)) = price_data s_sampled /\
  fst (monitor_symbol demo_kite market_2600 0%nat s_open "RELIANCE" clock0)
    = 1%nat /\
  snd (monitor_symbol demo_kite market_2600 0%nat s_noqty_open "RELIANCE"
                      clock0) = s_noqty_open.
Proof.
  split; [reflexivity|].
  destruct (monitor_closes_only_on_signal demo_kite market_2600 0%nat s_open
              "RELIANCE" clock0) as ([H|H] & _ & _).
  - exfalso. assert (A : is_active (active_trade s_open) = true)
      by reflexivity.
    rewrite <- H in A. vm_compute in A. discriminate A.
  - destruct H as (w1 & w2 & p & reason & oid & osym & oact & oqty & omsg
                   & sm & G & _ & _ & P & _ & W & _ & _ & _ & T & _ & _ & _
                   & D).
    split; [rewrite T; reflexivity|]. split; [rewrite D; reflexivity|].
    split.
    + rewrite W. vm_compute in G. injection G as <- <-.
      vm_compute in P. injection P as <- _ _ _ _ _. reflexivity.
    + destruct (monitor_closes_only_on_signal demo_kite market_2600 0%nat
                  s_noqty_open "RELIANCE" clock0) as (_ & _ & N).
      apply (N 0%nat 0%nat 2600%float
               "Error placing order: Quantity must be greater than 0"%string
               "RELIANCE"%string "sell"%string 0);
        reflexivity.
Defined.

(** X25. A trade entered with a quantity that is not positive cannot be
    closed from main.py: [place_order] rejects the exit order, so a
    monitor iteration leaves the instance as it is, and [manual_exit]
    answers 400 without reaching the broker and without touching the
    registry. *)
Theorem nonpositive_quantity_never_closes {World : Type} (K : Kite World)
    (M : Market World) (w : World) (s : Strategy) (sym : string)
    (now : string) :
  quantity (active_trade s) <= 0 ->
  snd (monitor_symbol K M w s sym now) = s /\
  (forall app w1 p,
     reg_lookup (upper sym) (strategy_instances app) = Some s ->
     is_active (active_trade s) = true ->
     get_ltp M w sym = (w1, inl (LtpSuccess p)) ->
     manual_exit K M w app sym now =
     (w1, app,
      ExitRejected
        "Failed to place exit order: Error placing order: Quantity must be greater than 0"
        (Some (OrderError
                 "Error placing order: Quantity must be greater than 0"
                 sym (exit_action (active_trade s))
                 (quantity (active_trade s)))))).
Proof.
  intros Q. split.
  - destruct (monitor_symbol_cases K M w s sym now)
      as [H|(w1 & w2 & p & reason & oid & osym & oact & oqty & omsg & sm
             & _ & _ & P & _)];
      [exact H|].
    rewrite (place_order_nonpositive K w1 sym _ Q) in P. discriminate P.
  - intros app w1 p L A G. unfold manual_exit.
    rewrite L, A, G. cbn [negb].
    rewrite (place_order_nonpositive K w1 sym _ Q). reflexivity.
Qed.

Lemma nonpositive_quantity_never_closes_witness :
  quantity (active_trade s_noqty) <= 0 /\
  check_exit_conditions s_noqty 103%float = Ok (Some "profit"%string) /\
  snd (monitor_symbol demo_kite market_103 0%nat s_noqty "RELIANCE" clock0)
  = s_noqty.
Proof.
  split; [discriminate|]. split; [reflexivity|].
  apply (nonpositive_quantity_never_closes demo_kite market_103 0%nat
           s_noqty "RELIANCE" clock0).
  discriminate.
Defined.

(** X26. A monitor pass only closes trades: it keeps the registered
    symbols in their order, and each instance afterwards is either the one
    before, or the result of a successful [exit_trade] on the one before
    at a price where [check_exit_conditions] gave a signal: the same
    symbol, parameters and price buffer, the trade dictionary blank, the
    levels cleared and unlocked.  With no active trade anywhere the pass
    does nothing at all, not even to the outside world. *)
Theorem monitor_pass_only_closes {World : Type} (K : Kite World)
    (M : Market World) (clock : string -> string) (w : World)
    (r : Registry) :
  map fst (snd (monitor_pass K M clock w r)) = map fst r /\
  (forall k s',
     reg_lookup k (snd (monitor_pass K M clock w r)) = Some s' ->
     exists s,
       reg_lookup k r = Some s /\
       (s' = s \/
        (is_active (active_trade s) = true /\
         (exists p reason oid sm,
            check_exit_conditions s p = Ok (Some reason) /\
            exit_trade s p reason (Some oid) (clock k)
              = (s', Ok (Some sm))) /\
         symbol s' = symbol s /\
         lookback_period s' = lookback_period s /\
         profit_target s' = profit_target s /\
         stop_loss s' = stop_loss s /\
         price_data s' = price_data s /\
         active_trade s' = no_trade /\
         levels_locked s' = false /\
         support_level s' = None /\
         resistance_level s' = None))) /\
  (all_idle r -> monitor_pass K M clock w r = (w, r)).
Proof.
  split; [|split].
  - revert w. induction r as [|[k0 s0] rest IH]; intros w; simpl;
      [reflexivity|].
    destruct (is_active (active_trade s0)).
    + destruct (monitor_symbol K M w s0 k0 (clock k0)) as [w1 s1].
      specialize (IH w1).
      destruct (monitor_pass K M clock w1 rest) as [w2 rest'].
      simpl in *. rewrite IH. reflexivity.
    + specialize (IH w).
      destruct (monitor_pass K M clock w rest) as [w2 rest'].
      simpl in *. rewrite IH. reflexivity.
  - revert w. induction r as [|[k0 s0] rest IH]; intros w k s'; simpl;
      [intros H; discriminate H|].
    destruct (is_active (active_trade s0)) eqn:A.
    + pose proof (monitor_symbol_closed K M w s0 k0 (clock k0)) as C.
      destruct (monitor_symbol K M w s0 k0 (clock k0)) as [w1 s1].
      specialize (IH w1 k s').
      destruct (monitor_pass K M clock w1 rest) as [w2 rest'].
      simpl in *. destruct (String.eqb_spec k k0) as [->|D].
      * intros H. injection H as <-. exists s0. split; [reflexivity|].
        destruct C as [C|C]; [left; exact C | right].
        split; [exact A | exact C].
      * exact IH.
    + specialize (IH w k s').
      destruct (monitor_pass K M clock w rest) as [w2 rest'].
      simpl in *. destruct (String.eqb k k0).
      * intros H. injection H as <-. exists s0. auto.
      * exact IH.
  - revert w. induction r as [|[k0 s0] rest IH]; intros w N; simpl;
      [reflexivity|].
    inversion N as [|x y A N']; subst. simpl in A.
    rewrite A, (IH w N'). reflexivity.
Qed.

Lemma monitor_pass_only_closes_witness :
  map fst (snd (monitor_pass demo_kite market_2600 (fun _ => clock0) 0%nat
                             reg_three))
    = ["RELIANCE"; "TCS"; "INFY"]%string /\
  (exists s',
     reg_lookup "RELIANCE"
       (snd (monitor_pass demo_kite market_2600 (fun _ => clock0) 0%nat
                          reg_three)) = Some s' /\
     is_active (active_trade s_open) = true /\
     is_active (active_trade s') = false /\
     price_data s' = price_data s_sampled) /\
  reg_lookup "TCS"
    (snd (monitor_pass demo_kite market_2600 (fun _ => clock0) 0%nat
                       reg_three)) = Some s_sampled /\
  reg_lookup "INFY"
    (snd (monitor_pass demo_kite market_2600 (fun _ => clock0) 0%nat
                       reg_three)) = Some s_noqty_open.
Proof.
  destruct (monitor_pass_only_closes demo_kite market_2600 (fun _ => clock0)
              0%nat reg_three) as (Keys & H & _).
  split; [rewrite Keys; reflexivity|].
  split; [|split; vm_compute; reflexivity].
  destruct (reg_lookup "RELIANCE"
              (snd (monitor_pass demo_kite market_2600 (fun _ => clock0)
                                 0%nat reg_three))) as [s'|] eqn:L;
    [|vm_compute in L; discriminate L].
  exists s'. split; [reflexivity|]. split; [reflexivity|].
  destruct (H _ _ L) as (s & Ls & [E|(A & _ & _ & _ & _ & _ & D & T & _)]).
  - exfalso. vm_compute in Ls. injection Ls as <-. subst s'.
    vm_compute in L. discriminate L.
  - vm_compute in Ls. injection Ls as <-.
    split; [rewrite T; reflexivity | rewrite D; reflexivity].
Defined.

(** The 200 answer of [manual_exit]: the long trade at 100 is closed at
    the quoted 103. *)
Example manual_exit_scenario :
  exists sm order_result,
    snd (manual_exit demo_kite market_103 0%nat app_long "reliance" clock0)
      = ExitDone (Some sm) order_result /\
    pnl sm = 30%float /\ sum_exit_reason sm = "manual"%string /\
    fst (fst (manual_exit demo_kite market_103 0%nat app_long "reliance"
                          clock0)) = 1%nat.
Proof.
  eexists. eexists. split; [vm_compute; reflexivity|].
  repeat split; reflexivity.
Qed.

(** X27. The manual-signal path of the webhook answers 200 for every buy
    or sell action, whether or not the order was placed: with a quantity
    that is not positive the answer is 200 and carries the error result of
    [place_order], and the broker was not reached.  An action that is
    neither buy nor sell is answered 400 before [place_order] is called. *)
Theorem webhook_manual_answers_200 {World : Type} (K : Kite World)
    (w : World) (sym action : string) (qty : Z) :
  (lower action <> "buy"%string /\ lower action <> "sell"%string ->
   webhook_manual K w sym action qty =
   (w, Manual400 manual_action_message)) /\
  (lower action = "buy"%string \/ lower action = "sell"%string ->
   (exists order_result,
      snd (webhook_manual K w sym action qty) = Manual200 sym order_result) /\
   (qty <= 0 ->
    webhook_manual K w sym action qty =
    (w, Manual200 sym
          (OrderError "Error placing order: Quantity must be greater than 0"
                      sym action qty)))).
Proof.
  unfold webhook_manual. split.
  - intros [A B]. apply String.eqb_neq in A, B. rewrite A, B. reflexivity.
  - intros V.
    assert (E : (String.eqb (lower action) "buy"
                 || String.eqb (lower action) "sell")%bool = true)
      by (destruct V as [-> | ->]; reflexivity).
    rewrite E. cbn [negb]. split.
    + destruct (place_order K w sym action qty) as [w1 o].
      eexists. reflexivity.
    + intros Q.
      rewrite (place_order_validates_helper K w sym action qty V Q).
      reflexivity.
Qed.
